(** * device_manager: device selection and distribution strategies

    A shallow embedding of [device_manager/device_manager.py]: the class
    [DeviceManager] keeps the selected device type, the selected devices, the
    cached distribution strategy, the scope last entered and the memory-growth
    flag as class attributes.  The host framework (device enumeration, memory
    growth, strategy constructors, strategy scopes) is not part of the
    repository; it is a record of oracles, [Framework], and the calls the
    class makes on it, device enumeration apart, are written to a trace. *)

From Stdlib Require Import String Ascii List ZArith Lia Bool PeanoNat.
Import ListNotations.
Local Open Scope string_scope.
Local Open Scope list_scope.

(* ================================================================== *)
(** ** Python strings *)

(** [str] is modelled by [string], a list of 8-bit characters: an ASCII
    character is itself, any other code point is its UTF-8 encoding.

    [str.upper] matters to the code only through the lookup of its result in
    the alias table of [_to_index], whose keys are ASCII.  Python maps each
    code point on its own; besides the ASCII letters, the code points whose
    upper-case form is ASCII are U+00DF (SS), U+0131 (I), U+017F (S) and the
    ligatures U+FB00 ... U+FB06 (FF, FI, FL, FFI, FFL, ST, ST).  [upper]
    below maps the ASCII letters and these ten code points as Python does and
    leaves the bytes of every other code point in place: its result equals an
    ASCII string exactly when Python's does.

    [str.lower] is applied by [_short_names] to the second-to-last segment
    of a device name.  [lower] is the ASCII case map; it is Python's result
    on every segment without a cased character outside ASCII, as the
    segments [CPU] and [GPU] of the names the framework reports are. *)
Module PyStr.

Definition is_upper (c : ascii) : bool :=
  let n := nat_of_ascii c in (65 <=? n)%nat && (n <=? 90)%nat.

Definition is_lower (c : ascii) : bool :=
  let n := nat_of_ascii c in (97 <=? n)%nat && (n <=? 122)%nat.

Definition lower_char (c : ascii) : ascii :=
  if is_upper c then ascii_of_nat (nat_of_ascii c + 32) else c.

Definition upper_char (c : ascii) : ascii :=
  if is_lower c then ascii_of_nat (nat_of_ascii c - 32) else c.

(** [s.lower()] *)
Fixpoint lower (s : string) : string :=
  match s with
  | EmptyString => EmptyString
  | String c r => String (lower_char c) (lower r)
  end.

(** The last byte of the encoding [EF AC 80] ... [EF AC 86] of a ligature
    U+FB00 ... U+FB06, and the ligature in upper case. *)
Definition ligature (b : ascii) : option string :=
  match nat_of_ascii b with
  | 128 => Some "FF"
  | 129 => Some "FI"
  | 130 => Some "FL"
  | 131 => Some "FFI"
  | 132 => Some "FFL"
  | 133 => Some "ST"
  | 134 => Some "ST"
  | _ => None
  end.

(** The first bytes of the encodings below: [C3], [C4], [C5] and [EF]. *)
Definition is_lead (c : ascii) : bool :=
  Ascii.eqb c "195" || Ascii.eqb c "196" || Ascii.eqb c "197" || Ascii.eqb c "239".

(** [c] followed by [rest] starts with U+00DF ([C3 9F]), U+0131 ([C4 B1]),
    U+017F ([C5 BF]) or a ligature: its upper-case form and what follows the
    code point.  The continuation bytes are no letters, so [rest] may be read
    before or after its own conversion. *)
Definition upper_special (c : ascii) (rest : string) : option (string * string) :=
  match rest with
  | EmptyString => None
  | String b1 r1 =>
      if Ascii.eqb c "195" && Ascii.eqb b1 "159" then Some ("SS", r1)
      else if Ascii.eqb c "196" && Ascii.eqb b1 "177" then Some ("I", r1)
      else if Ascii.eqb c "197" && Ascii.eqb b1 "191" then Some ("S", r1)
      else if Ascii.eqb c "239" && Ascii.eqb b1 "172" then
        match r1 with
        | EmptyString => None
        | String b2 r2 =>
            match ligature b2 with
            | Some out => Some (out, r2)
            | None => None
            end
        end
      else None
  end.

Definition upper_step (c : ascii) (done : string) : string :=
  match upper_special c done with
  | Some (out, rest) => (out ++ rest)%string
  | None => String (upper_char c) done
  end.

(** [s.upper()] *)
Fixpoint upper (s : string) : string :=
  match s with
  | EmptyString => EmptyString
  | String c r => upper_step c (upper r)
  end.

(** [s.isascii()] *)
Fixpoint is_ascii (s : string) : bool :=
  match s with
  | EmptyString => true
  | String c r => (nat_of_ascii c <? 128)%nat && is_ascii r
  end.

(** [s.split(sep)] for a one-character separator: the segments between the
    occurrences of [sep], empty ones included; never the empty list. *)
Fixpoint split (sep : ascii) (s : string) : list string :=
  match s with
  | EmptyString => [EmptyString]
  | String c r =>
      if Ascii.eqb c sep then EmptyString :: split sep r
      else match split sep r with
           | [] => [String c EmptyString]
           | seg :: segs => String c seg :: segs
           end
  end.

(** [sep not in s] *)
Fixpoint lacks (sep : ascii) (s : string) : bool :=
  match s with
  | EmptyString => true
  | String c r => negb (Ascii.eqb c sep) && lacks sep r
  end.

End PyStr.

Definition colon : ascii := ":"%char.

(* ================================================================== *)
(** ** Values, exceptions, results *)

(** [_PhysicalDevice = namedtuple("PhysicalDevice", ["name", "device_type"])] *)
Record PhysicalDevice := mkDevice { name : string; device_type : string }.

(** One element of [_DeviceString]: an [int], a [str], or any other object
    (the last branch of [_to_index]). *)
Inductive identifier :=
| IInt (n : Z)
| IStr (s : string)
| IOther.

(** [_DeviceString = Union[str, int, List[Union[str, int]]]]: the argument of
    [cpu] and [gpu] is a list of identifiers or one identifier. *)
Inductive DeviceString :=
| One (d : identifier)
| Many (l : list identifier).

(** The exceptions that occur.  [IndexError_device d] is
    [IndexError('Device "{}" not available!'.format(d))] of
    [_select_from_available]; [IndexError_list] is the [IndexError] of an
    out-of-range list subscript; [RuntimeError] stands for the class and its
    subclasses, which is what [except RuntimeError] catches. *)
Inductive exn :=
| IndexError_device (d : identifier)
| IndexError_list
| RuntimeError (tag : nat)
| ValueError (tag : nat)
| AttributeError
| UserError (tag : nat).

Definition is_IndexError (e : exn) : bool :=
  match e with
  | IndexError_device _ | IndexError_list => true
  | _ => false
  end.

Definition is_RuntimeError (e : exn) : bool :=
  match e with
  | RuntimeError _ => true
  | _ => false
  end.

(** The outcome of a call: a value or a raised exception. *)
Inductive res (A : Type) :=
| Ok (a : A)
| Raise (e : exn).
Arguments Ok {A} a.
Arguments Raise {A} e.

Definition res_bind {A B} (r : res A) (k : A -> res B) : res B :=
  match r with
  | Ok a => k a
  | Raise e => Raise e
  end.

(** [l[i]] with Python's negative subscripts. *)
Definition py_index {A} (l : list A) (i : Z) : res A :=
  let n := Z.of_nat (length l) in
  let j := (if i <? 0 then i + n else i)%Z in
  if ((j <? 0) || (n <=? j))%Z then Raise IndexError_list
  else match nth_error l (Z.to_nat j) with
       | Some a => Ok a
       | None => Raise IndexError_list
       end.

(** [d.get(key, default)] on a dict written as its items. *)
Fixpoint dict_get {V} (d : list (string * V)) (key : string) (default : V) : V :=
  match d with
  | [] => default
  | (k, v) :: r => if String.eqb k key then v else dict_get r key default
  end.

(* ================================================================== *)
(** ** The static methods *)

(** The body of the loop of [_short_names] (lines 58-59):
    [parts = device_name.name.split(':')] and
    ['/{}:{}'.format(parts[-2].lower(), parts[-1])]. *)
Definition short_name (device_name : PhysicalDevice) : res string :=
  let parts := PyStr.split colon (name device_name) in
  res_bind (py_index parts (-2)) (fun p2 =>
  res_bind (py_index parts (-1)) (fun p1 =>
  Ok ("/" ++ PyStr.lower p2 ++ ":" ++ p1)%string)).

(** The loop of [_short_names] with its accumulator [result]. *)
Fixpoint short_names_loop (devices : list PhysicalDevice) (result : list string)
  : res (list string) :=
  match devices with
  | [] => Ok result
  | device_name :: rest =>
      res_bind (short_name device_name) (fun s =>
      short_names_loop rest (result ++ [s]))
  end.

(** [DeviceManager._short_names] (lines 48-60). *)
Definition _short_names (devices : list PhysicalDevice) : res (list string) :=
  short_names_loop devices [].

(** [DeviceManager._to_index] (lines 62-79). *)
Definition _to_index (device_identifier : identifier) : Z :=
  match device_identifier with
  | IInt n => n
  | IStr s =>
      dict_get [("FIRST", 0); ("SECOND", 1); ("THIRD", 2); ("FOURTH", 3)]%Z
               (PyStr.upper s) (-1)%Z
  | IOther => (-1)%Z
  end.

(** [device_identifier == 'all'] *)
Definition is_all (device_identifier : identifier) : bool :=
  match device_identifier with
  | IStr s => String.eqb s "all"
  | _ => false
  end.

(** [for avail in available: result.append(avail)] (lines 98-99). *)
Definition append_all (available result : list PhysicalDevice) : list PhysicalDevice :=
  fold_left (fun r avail => r ++ [avail]) available result.

(** The loop of [_select_from_available] (lines 96-104) with its accumulator
    [result]. *)
Fixpoint select_loop (available : list PhysicalDevice) (device_list : list identifier)
    (result : list PhysicalDevice) : res (list PhysicalDevice) :=
  match device_list with
  | [] => Ok result
  | device_identifier :: rest =>
      if is_all device_identifier then
        select_loop available rest (append_all available result)
      else
        let idx := _to_index device_identifier in
        if ((idx <? 0) || (idx >=? Z.of_nat (length available)))%Z then
          Raise (IndexError_device device_identifier)
        else
          res_bind (py_index available idx) (fun d =>
          select_loop available rest (result ++ [d]))
  end.

(** [DeviceManager._select_from_available] (lines 81-105). *)
Definition _select_from_available (devices : DeviceString)
    (available : list PhysicalDevice) : res (list PhysicalDevice) :=
  let device_list := match devices with Many l => l | One d => [d] end in
  select_loop available device_list [].

(* ================================================================== *)
(** ** The host framework *)

(** [tf.distribute.OneDeviceStrategy(device=...)] and
    [tf.distribute.MirroredStrategy(devices=...)]: what the class asks the
    framework to construct. *)
Inductive Strategy :=
| OneDeviceStrategy (device : string)
| MirroredStrategy (devices : list string).

(** A strategy instance: every constructor call returns a new object, told
    apart by [strategy_id]. *)
Record StrategyObj := mkStrategy { strategy_id : nat; strategy_kind : Strategy }.

(** The context manager [strategy.scope()] returns, a new object per call. *)
Record ScopeObj := mkScope { scope_id : nat; scope_strategy : StrategyObj }.

(** The calls made on the framework, in program order. *)
Inductive event :=
| EvSetMemoryGrowth (gpu : PhysicalDevice) (enable : bool) (raised : option exn)
| EvNewStrategy (s : StrategyObj)
| EvNewScope (sc : ScopeObj)
| EvScopeEnter (sc : ScopeObj)
| EvScopeExit (sc : ScopeObj) (exc : option exn).

(** What the framework answers.  [list_physical_devices kind] is
    [tf.config.list_physical_devices(kind)]; [set_memory_growth] says, given
    the calls made so far, which exception (if any)
    [tf.config.experimental.set_memory_growth(gpu, enable)] raises;
    [scope_exit_result] is the value a scope's [__exit__] returns for the
    exception information it is given; [num_replicas_in_sync] is the
    strategy's attribute of that name.  Strategy constructors, [scope()] and a
    scope's [__enter__] are taken not to raise; the latter returns the
    scope's strategy. *)
Record Framework := mkFramework {
  list_physical_devices : string -> list PhysicalDevice;
  set_memory_growth : list event -> PhysicalDevice -> bool -> option exn;
  scope_exit_result : ScopeObj -> option exn -> option bool;
  num_replicas_in_sync : Strategy -> Z
}.

(* ================================================================== *)
(** ** The class attributes and the state monad *)

(** The class attributes of [DeviceManager] (lines 42-46). *)
Record DeviceManager := mkDM {
  _device : option string;
  _device_list : list PhysicalDevice;
  _strategy : option StrategyObj;
  _scope : option ScopeObj;
  _growth : bool
}.

(** The attributes, the next free object identity, and the trace of framework
    calls. *)
Record World := mkWorld {
  cls : DeviceManager;
  fresh : nat;
  trace : list event
}.

(** The class as the module defines it, nothing called yet. *)
Definition initial : World :=
  mkWorld (mkDM None [] None None false) 0 [].

(** A computation changes the world and returns or raises; what it changed
    before raising stays changed. *)
Definition M (A : Type) : Type := World -> res A * World.

Definition ret {A} (a : A) : M A := fun w => (Ok a, w).

Definition raise {A} (e : exn) : M A := fun w => (Raise e, w).

Definition bind {A B} (m : M A) (k : A -> M B) : M B :=
  fun w => match m w with
           | (Ok a, w') => k a w'
           | (Raise e, w') => (Raise e, w')
           end.

Notation "x <- m ;; k" := (bind m (fun x => k))
  (at level 61, m at next level, right associativity).
Notation "m ;; k" := (bind m (fun _ => k))
  (at level 61, right associativity).

Definition lift {A} (r : res A) : M A := fun w => (r, w).

Definition get_cls : M DeviceManager := fun w => (Ok (cls w), w).

Definition put_cls (d : DeviceManager) : M unit :=
  fun w => (Ok tt, mkWorld d (fresh w) (trace w)).

Definition set_device (v : option string) : M unit :=
  d <- get_cls ;; put_cls (mkDM v (_device_list d) (_strategy d) (_scope d) (_growth d)).

Definition set_device_list (v : list PhysicalDevice) : M unit :=
  d <- get_cls ;; put_cls (mkDM (_device d) v (_strategy d) (_scope d) (_growth d)).

Definition set_strategy (v : option StrategyObj) : M unit :=
  d <- get_cls ;; put_cls (mkDM (_device d) (_device_list d) v (_scope d) (_growth d)).

Definition set_scope (v : option ScopeObj) : M unit :=
  d <- get_cls ;; put_cls (mkDM (_device d) (_device_list d) (_strategy d) v (_growth d)).

Definition set_growth (v : bool) : M unit :=
  d <- get_cls ;; put_cls (mkDM (_device d) (_device_list d) (_strategy d) (_scope d) v).

Definition log (e : event) : M unit :=
  fun w => (Ok tt, mkWorld (cls w) (fresh w) (trace w ++ [e])).

Definition new_id : M nat :=
  fun w => (Ok (fresh w), mkWorld (cls w) (S (fresh w)) (trace w)).

(** [cls._device == kind]; the attribute is [None] or a [str]. *)
Definition device_is (v : option string) (kind : string) : bool :=
  match v with
  | Some s => String.eqb s kind
  | None => false
  end.

(** [try: body / except RuntimeError: pass] *)
Definition try_except_RuntimeError (body : M unit) : M unit :=
  fun w => match body w with
           | (Raise e, w') => if is_RuntimeError e then (Ok tt, w') else (Raise e, w')
           | r => r
           end.

(* ================================================================== *)
(** ** The methods of [DeviceManager] *)

Section Methods.

Variable fw : Framework.

(** One framework call [tf.config.experimental.set_memory_growth(gpu, enable)]. *)
Definition call_set_memory_growth (gpu : PhysicalDevice) (enable : bool) : M unit :=
  fun w =>
    let r := set_memory_growth fw (trace w) gpu enable in
    let w' := mkWorld (cls w) (fresh w) (trace w ++ [EvSetMemoryGrowth gpu enable r]) in
    match r with
    | None => (Ok tt, w')
    | Some e => (Raise e, w')
    end.

(** [for gpu in gpu_list: set_memory_growth(gpu, cls._growth)] (lines 145-146). *)
Fixpoint growth_loop (gpu_list : list PhysicalDevice) : M unit :=
  match gpu_list with
  | [] => ret tt
  | gpu :: rest =>
      d <- get_cls ;;
      call_set_memory_growth gpu (_growth d) ;;
      growth_loop rest
  end.

(** A strategy constructor call. *)
Definition construct (k : Strategy) : M StrategyObj :=
  i <- new_id ;;
  log (EvNewStrategy (mkStrategy i k)) ;;
  ret (mkStrategy i k).

(** [DeviceManager.cpu] (lines 107-119). *)
Definition cpu (devices : DeviceString) : M unit :=
  set_device (Some "cpu") ;;
  let available := list_physical_devices fw "CPU" in
  selected <- lift (_select_from_available devices available) ;;
  set_device_list selected ;;
  set_strategy None.

(** [DeviceManager.gpu] (lines 121-133). *)
Definition gpu (devices : DeviceString) : M unit :=
  set_device (Some "gpu") ;;
  let available := list_physical_devices fw "GPU" in
  selected <- lift (_select_from_available devices available) ;;
  set_device_list selected ;;
  set_strategy None.

(** Lines 141-148 of [_build_strategy], "Limit GPU memory usage". *)
Definition limit_gpu_memory : M unit :=
  d <- get_cls ;;
  if device_is (_device d) "gpu" then
    let gpu_list := list_physical_devices fw "GPU" in
    try_except_RuntimeError (growth_loop gpu_list)
  else ret tt.

(** Lines 151-156 of [_build_strategy]: the constructor call chosen by
    [len(devices)]. *)
Definition pick_strategy (devices : list string) : M StrategyObj :=
  if (2 <=? length devices)%nat then
    construct (MirroredStrategy devices)
  else if (length devices =? 1)%nat then
    device <- lift (py_index devices 0) ;;
    construct (OneDeviceStrategy device)
  else
    construct (OneDeviceStrategy "/cpu:0").

(** [DeviceManager._build_strategy] (lines 135-156). *)
Definition _build_strategy : M unit :=
  d <- get_cls ;;
  match _strategy d with
  | Some _ => ret tt
  | None =>
      limit_gpu_memory ;;
      d <- get_cls ;;
      devices <- lift (_short_names (_device_list d)) ;;
      s <- pick_strategy devices ;;
      set_strategy (Some s)
  end.

(** Reading [cls._strategy] to use it: [None] has none of the attributes
    asked of it. *)
Definition the_strategy : M StrategyObj :=
  d <- get_cls ;;
  match _strategy d with
  | Some s => ret s
  | None => raise AttributeError
  end.

(** [DeviceManager.scope] (lines 158-166). *)
Definition scope : M ScopeObj :=
  _build_strategy ;;
  s <- the_strategy ;;
  i <- new_id ;;
  log (EvNewScope (mkScope i s)) ;;
  ret (mkScope i s).

(** The property [DeviceManager.strategy] (lines 168-176). *)
Definition strategy : M (option StrategyObj) :=
  _build_strategy ;;
  d <- get_cls ;;
  ret (_strategy d).

(** The properties [DeviceManager.replica] and [DeviceManager.num]
    (lines 178-194). *)
Definition replica : M Z :=
  r <- strategy ;;
  match r with
  | Some s => ret (num_replicas_in_sync fw (strategy_kind s))
  | None => raise AttributeError
  end.

Definition num : M Z := replica.

(** [DeviceManager.__iter__] (lines 196-202): an iterator over the list
    object selected at the time of the call. *)
Definition __iter__ : M (list PhysicalDevice) :=
  d <- get_cls ;; ret (_device_list d).

(** [DeviceManager.__enter__] (lines 204-211). *)
Definition __enter__ : M StrategyObj :=
  sc <- scope ;;
  set_scope (Some sc) ;;
  d <- get_cls ;;
  match _scope d with
  | Some sc' => log (EvScopeEnter sc') ;; ret (scope_strategy sc')
  | None => raise AttributeError
  end.

(** [DeviceManager.__exit__] (lines 213-220); [exc] is the exception
    information, [None] on a normal exit. *)
Definition __exit__ (exc : option exn) : M (option bool) :=
  d <- get_cls ;;
  match _scope d with
  | Some sc => log (EvScopeExit sc exc) ;; ret (scope_exit_result fw sc exc)
  | None => raise AttributeError
  end.

(** The property [DeviceManager.growth] and its setter (lines 222-238). *)
Definition growth : M bool :=
  d <- get_cls ;; ret (_growth d).

Definition growth_setter (value : bool) : M unit := set_growth value.

(* ---------------------------------------------------------------- *)
(** *** Client code *)

(** Code that uses the manager: calls of its methods, [raise], a
    [try/except Exception: pass] block and a [with device_manager:] block. *)
Inductive stmt :=
| Skip
| Seq (a b : stmt)
| Cpu (devices : DeviceString)
| Gpu (devices : DeviceString)
| GetStrategy
| GetReplica
| CallScope
| Iterate
| SetGrowth (value : bool)
| RaiseStmt (e : exn)
| Try (body : stmt)
| With (body : stmt).

Definition truthy (r : option bool) : bool :=
  match r with
  | Some true => true
  | _ => false
  end.

(** The [with] statement: [__enter__], the body, then [__exit__] with the
    exception information of the body; an exception of the body is raised
    again unless [__exit__] returns a true value.  [__exit__] is not called
    when [__enter__] raises. *)
Definition with_block (body : M unit) : M unit :=
  fun w =>
    match __enter__ w with
    | (Raise e, w1) => (Raise e, w1)
    | (Ok _, w1) =>
        match body w1 with
        | (Ok _, w2) =>
            match __exit__ None w2 with
            | (Ok _, w3) => (Ok tt, w3)
            | (Raise e, w3) => (Raise e, w3)
            end
        | (Raise e, w2) =>
            match __exit__ (Some e) w2 with
            | (Ok r, w3) => if truthy r then (Ok tt, w3) else (Raise e, w3)
            | (Raise e', w3) => (Raise e', w3)
            end
        end
    end.

Definition discard {A} (m : M A) : M unit := m ;; ret tt.

Fixpoint exec (s : stmt) : M unit :=
  match s with
  | Skip => ret tt
  | Seq a b => exec a ;; exec b
  | Cpu devices => cpu devices
  | Gpu devices => gpu devices
  | GetStrategy => discard strategy
  | GetReplica => discard replica
  | CallScope => discard scope
  | Iterate => discard __iter__
  | SetGrowth value => growth_setter value
  | RaiseStmt e => raise e
  | Try body => fun w => match exec body w with
                         | (Raise _, w') => (Ok tt, w')
                         | r => r
                         end
  | With body => with_block (exec body)
  end.

(** The wrappers of the decorators [use_cpu], [use_gpu0] ... [use_gpu3]
    (lines 240-312) around a function whose body is [foo]. *)
Definition use_cpu (foo : stmt) : stmt := Seq (Cpu (One (IStr "all"))) (With foo).
Definition use_gpu0 (foo : stmt) : stmt := Seq (Gpu (One (IInt 0))) (With foo).
Definition use_gpu1 (foo : stmt) : stmt := Seq (Gpu (One (IInt 1))) (With foo).
Definition use_gpu2 (foo : stmt) : stmt := Seq (Gpu (One (IInt 2))) (With foo).
Definition use_gpu3 (foo : stmt) : stmt := Seq (Gpu (One (IInt 3))) (With foo).

End Methods.

(* ================================================================== *)
(** ** Vocabulary of the specification *)

(** Two strings are equal up to the case of their letters. *)
Fixpoint eq_nocase (s t : string) : bool :=
  match s, t with
  | EmptyString, EmptyString => true
  | String c s', String d t' =>
      Ascii.eqb (PyStr.lower_char c) (PyStr.lower_char d) && eq_nocase s' t'
  | _, _ => false
  end.

(** The identifiers of a call, as a list. *)
Definition identifiers (devices : DeviceString) : list identifier :=
  match devices with
  | Many l => l
  | One d => [d]
  end.

(** An identifier other than ['all'] that does not resolve to a position of
    [available]. *)
Definition unavailable (available : list PhysicalDevice) (d : identifier) : bool :=
  negb (is_all d) &&
  ((_to_index d <? 0)%Z || (Z.of_nat (length available) <=? _to_index d)%Z).

(** [dev] is the device of [available] at the index [d] resolves to. *)
Definition picks (available : list PhysicalDevice) (d : identifier)
    (dev : PhysicalDevice) : Prop :=
  (0 <= _to_index d)%Z /\ nth_error available (Z.to_nat (_to_index d)) = Some dev.

(** What one identifier contributes to a selection. *)
Definition expand (available : list PhysicalDevice) (d : identifier)
  : list PhysicalDevice :=
  if is_all d then available
  else match nth_error available (Z.to_nat (_to_index d)) with
       | Some dev => [dev]
       | None => []
       end.

(** The name has at least two segments when split on [':']. *)
Definition well_named (d : PhysicalDevice) : Prop :=
  (2 <= length (PyStr.split colon (name d)))%nat.

(** The strategy shape the specification gives for a selection: by its
    number of devices. *)
Definition shape_by_count (selected : list PhysicalDevice) (k : Strategy) : Prop :=
  match selected with
  | [] => k = OneDeviceStrategy "/cpu:0"
  | [d] => exists n, short_name d = Ok n /\ k = OneDeviceStrategy n
  | _ :: _ :: _ =>
      exists ns, Forall2 (fun d n => short_name d = Ok n) selected ns /\
                 k = MirroredStrategy ns
  end.

(** The cached strategy, if any, is an object already allocated and has the
    shape of the current selection. *)
Definition consistent (w : World) : Prop :=
  match _strategy (cls w) with
  | None => True
  | Some s => (strategy_id s < fresh w)%nat /\
              shape_by_count (_device_list (cls w)) (strategy_kind s)
  end.

(** The constructor argument chosen for the short names [names]. *)
Definition strategy_for (names : list string) : Strategy :=
  match names with
  | [] => OneDeviceStrategy "/cpu:0"
  | [n] => OneDeviceStrategy n
  | _ :: _ :: _ => MirroredStrategy names
  end.

(** [set_memory_growth] can raise [e]. *)
Definition raised_by (fw : Framework) (e : exn) : Prop :=
  exists tr g b, set_memory_growth fw tr g b = Some e.

(** The framework raises nothing but [RuntimeError] from
    [set_memory_growth]. *)
Definition only_RuntimeError (fw : Framework) : Prop :=
  forall tr g b e, set_memory_growth fw tr g b = Some e -> is_RuntimeError e = true.

(** The [set_memory_growth] calls on [gpus] with flag [enable] and the given
    outcomes, one per call made. *)
Definition growth_events (enable : bool) (gpus : list PhysicalDevice)
    (outcomes : list (option exn)) : list event :=
  map (fun go => EvSetMemoryGrowth (fst go) enable (snd go)) (combine gpus outcomes).

(** The trace [tr] holds a [set_memory_growth] call on [g] with flag
    [enable]. *)
Definition growth_applied (tr : list event) (g : PhysicalDevice) (enable : bool) : Prop :=
  exists o, In (EvSetMemoryGrowth g enable o) tr.

(** The statement enters no [with device_manager:] block. *)
Fixpoint no_with (s : stmt) : bool :=
  match s with
  | Seq a b => no_with a && no_with b
  | Try body => no_with body
  | With _ => false
  | _ => true
  end.

Definition is_scope_event (e : event) : bool :=
  match e with
  | EvScopeEnter _ | EvScopeExit _ _ => true
  | _ => false
  end.

(** No event of [evs] enters or leaves a scope. *)
Definition quiet (evs : list event) : Prop :=
  Forall (fun e => is_scope_event e = false) evs.

(** From [w] to [w2] the stored scope stayed and no scope was entered or
    left. *)
Definition extends (w w2 : World) : Prop :=
  _scope (cls w2) = _scope (cls w) /\
  exists evs, trace w2 = trace w ++ evs /\ quiet evs.

(** The exception information a [with] block passes to [__exit__]. *)
Definition exc_info {A} (r : res A) : option exn :=
  match r with
  | Ok _ => None
  | Raise e => Some e
  end.

(** [cpu] or [gpu], and the device kind each queries. *)
Definition select_call (fw : Framework) (on_gpu : bool) : DeviceString -> M unit :=
  if on_gpu then gpu fw else cpu fw.

Definition queried (fw : Framework) (on_gpu : bool) : list PhysicalDevice :=
  list_physical_devices fw (if on_gpu then "GPU" else "CPU").

Definition kind_name (on_gpu : bool) : string :=
  if on_gpu then "gpu" else "cpu".

(* ================================================================== *)
(** ** A host with one CPU and two GPUs *)

Definition cpu0 : PhysicalDevice := mkDevice "/physical_device:CPU:0" "CPU".
Definition gpu0 : PhysicalDevice := mkDevice "/physical_device:GPU:0" "GPU".
Definition gpu1 : PhysicalDevice := mkDevice "/physical_device:GPU:1" "GPU".

Definition host_devices (kind : string) : list PhysicalDevice :=
  if String.eqb kind "GPU" then [gpu0; gpu1]
  else if String.eqb kind "CPU" then [cpu0]
  else [].

Definition replicas (k : Strategy) : Z :=
  match k with
  | OneDeviceStrategy _ => 1%Z
  | MirroredStrategy l => Z.of_nat (length l)
  end.

(** Memory growth can always be set. *)
Definition host : Framework :=
  mkFramework host_devices (fun _ _ _ => None) (fun _ _ => None) replicas.

(** The runtime is initialised: every [set_memory_growth] raises
    [RuntimeError]. *)
Definition host_late : Framework :=
  mkFramework host_devices (fun _ _ _ => Some (RuntimeError 0)) (fun _ _ => None) replicas.

(** [set_memory_growth] raises [ValueError]. *)
Definition host_invalid : Framework :=
  mkFramework host_devices (fun _ _ _ => Some (ValueError 0)) (fun _ _ => None) replicas.

(** The world after [gpu()] on the host, and after [cpu()]. *)
Definition after_gpu_all : World :=
  snd (select_call host true (One (IStr "all")) initial).

Definition after_cpu_all : World :=
  snd (select_call host false (One (IStr "all")) initial).

(** Every character, for checks that run over the whole alphabet. *)
Definition all_ascii : list ascii := map ascii_of_nat (seq 0 256).

(** For an upper-case letter [d]: [c.upper() == d] exactly when [c] and [d]
    agree up to case. *)
Definition upper_key_check (d c : ascii) : bool :=
  implb (PyStr.is_upper d)
        (Bool.eqb (Ascii.eqb d (PyStr.upper_char c))
                  (Ascii.eqb (PyStr.lower_char c) (PyStr.lower_char d))).

(** A string of upper-case letters, as the keys of the alias table are. *)
Fixpoint all_upper (s : string) : bool :=
  match s with
  | EmptyString => true
  | String c r => PyStr.is_upper c && all_upper r
  end.

(** What the conversion to upper case relies on, checked per character: an
    ASCII character and an upper-case letter start no special encoding, the
    upper-case map is idempotent and changes neither the special first bytes
    nor any character outside ASCII. *)
Definition lead_check (c : ascii) : bool :=
  implb (nat_of_ascii c <? 128)%nat (negb (PyStr.is_lead c)) &&
  implb (PyStr.is_upper c) (negb (PyStr.is_lead c) && Ascii.eqb (PyStr.upper_char c) c) &&
  Ascii.eqb (PyStr.upper_char (PyStr.upper_char c)) (PyStr.upper_char c) &&
  Bool.eqb (PyStr.is_lead (PyStr.upper_char c)) (PyStr.is_lead c) &&
  implb (PyStr.is_lead c) (Ascii.eqb (PyStr.upper_char c) c) &&
  implb (128 <=? nat_of_ascii c)%nat (Ascii.eqb (PyStr.upper_char c) c).

(** The upper-case form of a ligature is made of upper-case letters, and its
    last byte is neither a letter nor a special first byte. *)
Definition ligature_check (b : ascii) : bool :=
  match PyStr.ligature b with
  | Some out => all_upper out && negb (PyStr.is_lead b) && Ascii.eqb (PyStr.upper_char b) b
  | None => true
  end.

(** Two characters with the same lower-case form are equal, or are letters
    with the same upper-case form. *)
Definition case_pair_check (c d : ascii) : bool :=
  implb (Ascii.eqb (PyStr.lower_char c) (PyStr.lower_char d))
        (Ascii.eqb c d ||
         (negb (PyStr.is_lead c) && negb (PyStr.is_lead d) &&
          Ascii.eqb (PyStr.upper_char c) (PyStr.upper_char d))).

(** The word first written with the ligature U+FB01 (bytes [EF AC 81])
    followed by [rst]. *)
Definition fi_rst : string :=
  String "239" (String "172" (String "129" "rst")).

(* ================================================================== *)
(** ** Further vocabulary *)

(** The decorator for GPU [n], [n] from 0 to 3. *)
Definition use_gpu (n : nat) : stmt -> stmt :=
  match n with
  | 0 => use_gpu0
  | 1 => use_gpu1
  | 2 => use_gpu2
  | _ => use_gpu3
  end.

(** The number of identifiers that are ['all'], and of those that are not. *)
Definition count_all (ids : list identifier) : nat :=
  length (filter is_all ids).

Definition count_indexed (ids : list identifier) : nat :=
  length (filter (fun d => negb (is_all d)) ids).

(** A string of decimal digits (the empty string included). *)
Fixpoint all_digits (s : string) : bool :=
  match s with
  | EmptyString => true
  | String c r =>
      let n := nat_of_ascii c in
      (48 <=? n)%nat && (n <=? 57)%nat && all_digits r
  end.

(** The statement calls neither [cpu] nor [gpu]. *)
Fixpoint no_select (s : stmt) : bool :=
  match s with
  | Seq a b => no_select a && no_select b
  | Try body => no_select body
  | With body => no_select body
  | Cpu _ | Gpu _ => false
  | _ => true
  end.

(** The statement does not assign the growth flag. *)
Fixpoint no_set_growth (s : stmt) : bool :=
  match s with
  | Seq a b => no_set_growth a && no_set_growth b
  | Try body => no_set_growth body
  | With body => no_set_growth body
  | SetGrowth _ => false
  | _ => true
  end.

(** No [with device_manager:] block of the statement contains another. *)
Fixpoint flat (s : stmt) : bool :=
  match s with
  | Seq a b => flat a && flat b
  | Try body => flat body
  | With body => no_with body
  | _ => true
  end.

(** The scope events of a trace, in order. *)
Definition scope_events (evs : list event) : list event :=
  filter is_scope_event evs.

(** Every scope entered is left right after, before another is entered. *)
Inductive balanced : list event -> Prop :=
| balanced_nil : balanced []
| balanced_pair sc exc l :
    balanced l -> balanced (EvScopeEnter sc :: EvScopeExit sc exc :: l).

(** From [w] to [w2] the device type, the selection and the growth flag
    stayed. *)
Definition same_config (w w2 : World) : Prop :=
  _device (cls w2) = _device (cls w) /\
  _device_list (cls w2) = _device_list (cls w) /\
  _growth (cls w2) = _growth (cls w).

(** A framework call a build makes: [set_memory_growth] or a strategy
    constructor. *)
Definition is_build_event (e : event) : bool :=
  match e with
  | EvSetMemoryGrowth _ _ _ | EvNewStrategy _ => true
  | _ => false
  end.

(** Checks on one character, run over the whole alphabet. *)
Definition case_check (c : ascii) : bool :=
  Ascii.eqb (PyStr.lower_char (PyStr.lower_char c)) (PyStr.lower_char c).

Definition lower_colon_check (c : ascii) : bool :=
  Bool.eqb (Ascii.eqb (PyStr.lower_char c) colon) (Ascii.eqb c colon).

Definition digit_check (c : ascii) : bool :=
  let n := nat_of_ascii c in
  implb ((48 <=? n)%nat && (n <=? 57)%nat)
        (negb (Ascii.eqb (PyStr.lower_char c) "f"%char) &&
         negb (Ascii.eqb (PyStr.lower_char c) "s"%char) &&
         negb (Ascii.eqb (PyStr.lower_char c) "t"%char)).

(** A host whose one CPU has a name without [':']. *)
Definition odd_device : PhysicalDevice := mkDevice "cpu" "CPU".

Definition host_odd : Framework :=
  mkFramework (fun kind => if String.eqb kind "CPU" then [odd_device] else [])
              (fun _ _ _ => None) (fun _ _ => None) replicas.

(** A host without devices. *)
Definition host_bare : Framework :=
  mkFramework (fun _ => []) (fun _ _ _ => None) (fun _ _ => None) replicas.

(** Unfolds the monad's plumbing so that a computation applied to a world
    shows what it does. *)
Ltac unfold_monad :=
  unfold the_strategy, discard, set_device, set_device_list, set_strategy,
    set_scope, set_growth, construct, new_id, log, lift, get_cls, put_cls,
    bind, ret, raise;
  cbv beta iota.

(* ================================================================== *)
(** * Properties *)

(** ** Lists, subscripts and results *)

Lemma append_all_app (available result : list PhysicalDevice) :
  append_all available result = result ++ available.
Proof.
  unfold append_all. revert result.
  induction available as [|a l IH]; intro result; simpl.
  - now rewrite app_nil_r.
  - rewrite IH, <- app_assoc. reflexivity.
Qed.

Lemma py_index_in_range {A} (l : list A) (i : Z) :
  (0 <= i < Z.of_nat (length l))%Z ->
  exists a, py_index l i = Ok a /\ nth_error l (Z.to_nat i) = Some a.
Proof.
  intros [Hlo Hhi]. unfold py_index. cbv zeta.
  destruct (Z.ltb_spec i 0) as [Hneg|_]; [lia|].
  rewrite (proj2 (Z.ltb_ge i 0) Hlo).
  destruct (Z.leb_spec (Z.of_nat (length l)) i) as [Hbig|_]; [lia|].
  simpl. destruct (nth_error l (Z.to_nat i)) as [a|] eqn:E.
  - now exists a.
  - apply nth_error_None in E. lia.
Qed.

(** ** Case-insensitive lookup *)

Lemma in_all_ascii (c : ascii) : In c all_ascii.
Proof.
  unfold all_ascii. rewrite <- (ascii_nat_embedding c).
  apply in_map, in_seq. pose proof (nat_ascii_bounded c). lia.
Qed.

Lemma upper_char_key (c d : ascii) :
  PyStr.is_upper d = true ->
  Ascii.eqb d (PyStr.upper_char c) = Ascii.eqb (PyStr.lower_char c) (PyStr.lower_char d).
Proof.
  intro Hd.
  assert (H : forallb (fun d => forallb (upper_key_check d) all_ascii) all_ascii = true)
    by (vm_compute; reflexivity).
  rewrite forallb_forall in H. specialize (H d (in_all_ascii d)).
  rewrite forallb_forall in H. specialize (H c (in_all_ascii c)).
  unfold upper_key_check in H. rewrite Hd in H. simpl in H.
  now apply Bool.eqb_prop in H.
Qed.

Lemma ascii_check (P : ascii -> bool) :
  forallb P all_ascii = true -> forall c, P c = true.
Proof.
  intros H c. rewrite forallb_forall in H. apply H, in_all_ascii.
Qed.

Lemma lead_facts (c : ascii) :
  ((nat_of_ascii c <? 128)%nat = true -> PyStr.is_lead c = false) /\
  (PyStr.is_upper c = true -> PyStr.is_lead c = false /\ PyStr.upper_char c = c) /\
  PyStr.upper_char (PyStr.upper_char c) = PyStr.upper_char c /\
  PyStr.is_lead (PyStr.upper_char c) = PyStr.is_lead c /\
  (PyStr.is_lead c = true -> PyStr.upper_char c = c) /\
  ((128 <=? nat_of_ascii c)%nat = true -> PyStr.upper_char c = c).
Proof.
  assert (H : lead_check c = true) by (apply ascii_check; vm_compute; reflexivity).
  unfold lead_check in H.
  apply andb_true_iff in H as [H H6]. apply andb_true_iff in H as [H H5].
  apply andb_true_iff in H as [H H4]. apply andb_true_iff in H as [H H3].
  apply andb_true_iff in H as [H1 H2].
  split; [|split; [|split; [|split; [|split]]]].
  - intro E. rewrite E in H1. simpl in H1. now apply negb_true_iff in H1.
  - intro E. rewrite E in H2. simpl in H2. apply andb_true_iff in H2 as [A B].
    apply negb_true_iff in A. apply Ascii.eqb_eq in B. now split.
  - now apply Ascii.eqb_eq.
  - now apply Bool.eqb_prop.
  - intro E. rewrite E in H5. now apply Ascii.eqb_eq in H5.
  - intro E. rewrite E in H6. now apply Ascii.eqb_eq in H6.
Qed.

Lemma upper_step_plain c acc :
  PyStr.is_lead c = false ->
  PyStr.upper_step c acc = String (PyStr.upper_char c) acc.
Proof.
  intro H. unfold PyStr.is_lead in H.
  repeat (apply orb_false_iff in H as [H ?]).
  unfold PyStr.upper_step, PyStr.upper_special.
  destruct acc as [|b1 r1]; [reflexivity|].
  now rewrite H, H0, H1, H2.
Qed.

Lemma upper_ascii_key (key s : string) :
  all_upper key = true -> PyStr.is_ascii s = true ->
  String.eqb key (PyStr.upper s) = eq_nocase s key.
Proof.
  revert key. induction s as [|c s IH]; intros [|d key] Hk Hs; simpl; try reflexivity.
  - simpl in Hs. apply andb_true_iff in Hs as [Hc Hs].
    rewrite (upper_step_plain c _ (proj1 (lead_facts c) Hc)). reflexivity.
  - simpl in Hk, Hs. apply andb_true_iff in Hk as [Hd Hk].
    apply andb_true_iff in Hs as [Hc Hs].
    rewrite (upper_step_plain c _ (proj1 (lead_facts c) Hc)). simpl.
    rewrite (upper_char_key c d Hd), (IH key Hk Hs).
    now destruct (Ascii.eqb (PyStr.lower_char c) (PyStr.lower_char d)).
Qed.

Lemma case_pair (c d : ascii) :
  PyStr.lower_char c = PyStr.lower_char d ->
  c = d \/ (PyStr.is_lead c = false /\ PyStr.is_lead d = false /\
            PyStr.upper_char c = PyStr.upper_char d).
Proof.
  intro E.
  assert (H : forallb (fun c => forallb (case_pair_check c) all_ascii) all_ascii = true)
    by (vm_compute; reflexivity).
  rewrite forallb_forall in H. specialize (H c (in_all_ascii c)).
  rewrite forallb_forall in H. specialize (H d (in_all_ascii d)).
  unfold case_pair_check in H. rewrite E, Ascii.eqb_refl in H. simpl in H.
  apply orb_true_iff in H as [H|H].
  - left. now apply Ascii.eqb_eq.
  - right. apply andb_true_iff in H as [H C]. apply andb_true_iff in H as [A B].
    apply negb_true_iff in A, B. apply Ascii.eqb_eq in C. auto.
Qed.

Lemma upper_lower_compat (s t : string) :
  PyStr.lower s = PyStr.lower t -> PyStr.upper s = PyStr.upper t.
Proof.
  revert t. induction s as [|c s IH]; intros [|d t]; simpl; try discriminate; auto.
  intros [= Ec Es]. rewrite (IH t Es).
  destruct (case_pair c d Ec) as [->|(A & B & C)]; [reflexivity|].
  now rewrite !upper_step_plain, C.
Qed.

Lemma upper_app_out out rest :
  all_upper out = true ->
  PyStr.upper (out ++ rest) = (out ++ PyStr.upper rest)%string.
Proof.
  induction out as [|c out IH]; simpl; [reflexivity|].
  intro H. apply andb_true_iff in H as [Hc Ho].
  destruct (proj1 (proj2 (lead_facts c)) Hc) as [Hl Hu].
  now rewrite (IH Ho), (upper_step_plain c _ Hl), Hu.
Qed.

Lemma ligature_out b out : PyStr.ligature b = Some out ->
  all_upper out = true /\ PyStr.is_lead b = false /\ PyStr.upper_char b = b.
Proof.
  intro E.
  assert (H : ligature_check b = true) by (apply ascii_check; vm_compute; reflexivity).
  unfold ligature_check in H. rewrite E in H.
  apply andb_true_iff in H as [H C]. apply andb_true_iff in H as [A B].
  apply negb_true_iff in B. apply Ascii.eqb_eq in C. auto.
Qed.

Lemma upper_special_some c acc out rest :
  PyStr.upper_special c acc = Some (out, rest) ->
  all_upper out = true /\
  ((exists b1, acc = String b1 rest /\ PyStr.is_lead b1 = false /\
               PyStr.upper_char b1 = b1) \/
   (exists b1 b2, acc = String b1 (String b2 rest) /\
                  PyStr.is_lead b1 = false /\ PyStr.upper_char b1 = b1 /\
                  PyStr.is_lead b2 = false /\ PyStr.upper_char b2 = b2)).
Proof.
  unfold PyStr.upper_special. destruct acc as [|b1 r1]; [discriminate|].
  destruct (Ascii.eqb c "195" && Ascii.eqb b1 "159") eqn:E1.
  { intros [= <- <-]. apply andb_true_iff in E1 as [_ E]. apply Ascii.eqb_eq in E.
    subst b1. split; [reflexivity|]. left. eexists. repeat split. }
  destruct (Ascii.eqb c "196" && Ascii.eqb b1 "177") eqn:E2.
  { intros [= <- <-]. apply andb_true_iff in E2 as [_ E]. apply Ascii.eqb_eq in E.
    subst b1. split; [reflexivity|]. left. eexists. repeat split. }
  destruct (Ascii.eqb c "197" && Ascii.eqb b1 "191") eqn:E3.
  { intros [= <- <-]. apply andb_true_iff in E3 as [_ E]. apply Ascii.eqb_eq in E.
    subst b1. split; [reflexivity|]. left. eexists. repeat split. }
  destruct (Ascii.eqb c "239" && Ascii.eqb b1 "172") eqn:E4; [|discriminate].
  destruct r1 as [|b2 r2]; [discriminate|].
  destruct (PyStr.ligature b2) as [o|] eqn:El; [|discriminate].
  intros [= <- <-]. apply andb_true_iff in E4 as [_ E]. apply Ascii.eqb_eq in E.
  subst b1. destruct (ligature_out b2 o El) as (A & B & C).
  split; [exact A|]. right. exists "172"%char, b2. repeat split; auto.
Qed.

Lemma upper_idem (s : string) : PyStr.upper (PyStr.upper s) = PyStr.upper s.
Proof.
  induction s as [|c s IH]; [reflexivity|].
  simpl. set (acc := PyStr.upper s) in *. unfold PyStr.upper_step.
  destruct (PyStr.upper_special c acc) as [[out rest]|] eqn:E.
  - destruct (upper_special_some _ _ _ _ E) as [Ho [(b1 & Ea & L1 & U1)|(b1 & b2 & Ea & L1 & U1 & L2 & U2)]];
      rewrite (upper_app_out _ _ Ho); f_equal; rewrite Ea in IH; simpl in IH.
    + rewrite (upper_step_plain _ _ L1), U1 in IH. now injection IH.
    + rewrite (upper_step_plain _ _ L1), U1 in IH. injection IH as IH.
      rewrite (upper_step_plain _ _ L2), U2 in IH. now injection IH.
  - simpl. rewrite IH. destruct (lead_facts c) as (_ & _ & Hi & Hl & Hc & _).
    destruct (PyStr.is_lead c) eqn:L.
    + rewrite (Hc eq_refl). unfold PyStr.upper_step. now rewrite E, (Hc eq_refl).
    + rewrite upper_step_plain by exact Hl. now rewrite Hi.
Qed.

Lemma eq_nocase_lower (s t : string) :
  eq_nocase s t = String.eqb (PyStr.lower s) (PyStr.lower t).
Proof.
  revert t. induction s as [|c s IH]; intros [|d t]; simpl; try reflexivity.
  now rewrite IH.
Qed.

(** The lookup of [_to_index] compares [s.upper()] with the keys in turn. *)
Lemma to_index_upper (s : string) :
  _to_index (IStr s) =
    (if String.eqb "FIRST" (PyStr.upper s) then 0
     else if String.eqb "SECOND" (PyStr.upper s) then 1
     else if String.eqb "THIRD" (PyStr.upper s) then 2
     else if String.eqb "FOURTH" (PyStr.upper s) then 3
     else -1)%Z.
Proof. reflexivity. Qed.

(** On an ASCII string the lookup compares [s] and the keys up to case. *)
Lemma to_index_table (s : string) :
  PyStr.is_ascii s = true ->
  _to_index (IStr s) =
    (if eq_nocase s "FIRST" then 0
     else if eq_nocase s "SECOND" then 1
     else if eq_nocase s "THIRD" then 2
     else if eq_nocase s "FOURTH" then 3
     else -1)%Z.
Proof.
  intro Hs. rewrite to_index_upper.
  rewrite !(fun key H => upper_ascii_key key s H Hs) by reflexivity. reflexivity.
Qed.

Lemma to_index_nocase (s t : string) :
  eq_nocase s t = true -> _to_index (IStr s) = _to_index (IStr t).
Proof.
  rewrite eq_nocase_lower. intro H. apply String.eqb_eq in H.
  rewrite !to_index_upper, (upper_lower_compat s t H). reflexivity.
Qed.

Lemma to_index_range (s : string) :
  (-1 <= _to_index (IStr s) <= 3)%Z.
Proof.
  rewrite to_index_upper.
  destruct (String.eqb "FIRST" (PyStr.upper s)); [lia|].
  destruct (String.eqb "SECOND" (PyStr.upper s)); [lia|].
  destruct (String.eqb "THIRD" (PyStr.upper s)); [lia|].
  destruct (String.eqb "FOURTH" (PyStr.upper s)); lia.
Qed.

(** ** Selection *)

Lemma select_loop_acc available ids acc :
  select_loop available ids acc =
  res_bind (select_loop available ids []) (fun r => Ok (acc ++ r)).
Proof.
  revert acc. induction ids as [|d ids IH]; intro acc; simpl.
  - now rewrite app_nil_r.
  - destruct (is_all d).
    + rewrite (IH (append_all available acc)), (IH (append_all available [])).
      rewrite !append_all_app. simpl.
      destruct (select_loop available ids []); simpl; [|reflexivity].
      now rewrite app_assoc.
    + destruct ((_to_index d <? 0)%Z || (_to_index d >=? Z.of_nat (length available))%Z);
        [reflexivity|].
      destruct (py_index available (_to_index d)) as [dev|e]; simpl; [|reflexivity].
      rewrite (IH (acc ++ [dev])), (IH [dev]).
      destruct (select_loop available ids []); simpl; [|reflexivity].
      now rewrite <- app_assoc.
Qed.

(** The loop raises for the first identifier that is not available, and
    otherwise returns what the identifiers contribute, in their order. *)
Lemma select_loop_spec available ids :
  select_loop available ids [] =
  match find (unavailable available) ids with
  | Some d => Raise (IndexError_device d)
  | None => Ok (flat_map (expand available) ids)
  end.
Proof.
  induction ids as [|d ids IH]; simpl; [reflexivity|].
  unfold unavailable at 1, expand at 1.
  destruct (is_all d) eqn:Hall; simpl.
  - rewrite select_loop_acc, append_all_app, IH. simpl.
    now destruct (find (unavailable available) ids).
  - rewrite Z.geb_leb.
    destruct ((_to_index d <? 0)%Z || (Z.of_nat (length available) <=? _to_index d)%Z) eqn:Hr;
      [reflexivity|].
    apply orb_false_iff in Hr as [Hlo Hhi].
    apply Z.ltb_ge in Hlo. apply Z.leb_gt in Hhi.
    destruct (py_index_in_range available (_to_index d) (conj Hlo Hhi)) as [dev [Hp Hn]].
    rewrite Hp, Hn. simpl. rewrite select_loop_acc, IH.
    now destruct (find (unavailable available) ids).
Qed.

Lemma select_from_available_spec devices available :
  _select_from_available devices available =
  match find (unavailable available) (identifiers devices) with
  | Some d => Raise (IndexError_device d)
  | None => Ok (flat_map (expand available) (identifiers devices))
  end.
Proof.
  unfold _select_from_available.
  replace (match devices with Many l => l | One d => [d] end) with (identifiers devices)
    by now destruct devices.
  apply select_loop_spec.
Qed.

(** What [cpu] and [gpu] do to the world, by the outcome of the selection. *)
Lemma select_call_eq fw on_gpu devices w :
  select_call fw on_gpu devices w =
  match _select_from_available devices (queried fw on_gpu) with
  | Ok sel =>
      (Ok tt, mkWorld (mkDM (Some (kind_name on_gpu)) sel None
                            (_scope (cls w)) (_growth (cls w)))
                      (fresh w) (trace w))
  | Raise e =>
      (Raise e, mkWorld (mkDM (Some (kind_name on_gpu)) (_device_list (cls w))
                              (_strategy (cls w)) (_scope (cls w)) (_growth (cls w)))
                        (fresh w) (trace w))
  end.
Proof.
  destruct on_gpu; unfold select_call, queried, kind_name, gpu, cpu, bind, lift,
    set_device, set_device_list, set_strategy, get_cls, put_cls; simpl;
    match goal with |- context [_select_from_available ?d ?a] =>
      destruct (_select_from_available d a) end; reflexivity.
Qed.

Lemma find_first {A} (f : A -> bool) (l : list A) (x : A) :
  find f l = Some x ->
  exists pre post, l = pre ++ x :: post /\ f x = true /\
                   Forall (fun y => f y = false) pre.
Proof.
  induction l as [|a l IH]; simpl; [discriminate|].
  destruct (f a) eqn:Fa.
  - intros [= <-]. now exists [], l.
  - intro H. destruct (IH H) as (pre & post & -> & Hx & Hpre).
    exists (a :: pre), post. repeat split; auto.
Qed.

Lemma find_exists {A} (f : A -> bool) (l : list A) (x : A) :
  In x l -> f x = true -> exists y, find f l = Some y.
Proof.
  intros Hin Hx. destruct (find f l) as [y|] eqn:E; [now exists y|].
  rewrite (find_none f l E x Hin) in Hx. discriminate.
Qed.

Lemma find_app_skip {A} (f : A -> bool) (l1 l2 : list A) (x : A) :
  f x = false ->
  find f (l1 ++ x :: l2) =
  match find f l1 with Some y => Some y | None => find f l2 end.
Proof.
  intro Hx. induction l1 as [|a l1 IH]; simpl.
  - now rewrite Hx.
  - destruct (f a); [reflexivity|apply IH].
Qed.

(** Valid identifiers other than ['all'] are all available, and each
    contributes the one device at its index. *)
Lemma valid_identifiers_select available ids :
  Forall (fun d => is_all d = false /\
                   (0 <= _to_index d < Z.of_nat (length available))%Z) ids ->
  find (unavailable available) ids = None /\
  Forall2 (picks available) ids (flat_map (expand available) ids).
Proof.
  induction 1 as [|d ids [Hall [Hlo Hhi]] _ [IHf IH2]]; simpl; [now split|].
  assert (Hu : unavailable available d = false).
  { unfold unavailable. rewrite Hall. simpl. apply orb_false_iff. split.
    - apply Z.ltb_ge. lia.
    - apply Z.leb_gt. lia. }
  rewrite Hu. split; [exact IHf|].
  unfold expand at 1. rewrite Hall.
  destruct (py_index_in_range available (_to_index d) (conj Hlo Hhi)) as [dev [_ Hn]].
  rewrite Hn. simpl. constructor; [now split|exact IH2].
Qed.

(** ** Claims on selection *)

(** C2: an integer identifier is its own index; a string identifier is
    looked up by its upper-case form in the table FIRST -> 0, SECOND -> 1,
    THIRD -> 2, FOURTH -> 3 and resolves to -1 otherwise.  The lookup does
    not see the case of letters: strings equal up to the case of their
    letters resolve alike, and an ASCII string resolves to the index of the
    key it equals up to case, to -1 if there is none.  Upper-casing is
    Python's: the word first written with the ligature U+FB01 resolves to 0.
    And when some identifier other than ['all'] resolves to a negative or too
    large index, [cpu] and [gpu] raise the index error of the first such
    identifier, whatever came before it, and leave the selected devices as
    they were. *)
Theorem C2_identifier_resolution :
  (forall n, _to_index (IInt n) = n) /\
  (forall s, _to_index (IStr s) =
             (if String.eqb (PyStr.upper s) "FIRST" then 0
              else if String.eqb (PyStr.upper s) "SECOND" then 1
              else if String.eqb (PyStr.upper s) "THIRD" then 2
              else if String.eqb (PyStr.upper s) "FOURTH" then 3
              else -1)%Z) /\
  (forall s t, eq_nocase s t = true -> _to_index (IStr s) = _to_index (IStr t)) /\
  (forall s, PyStr.is_ascii s = true ->
             _to_index (IStr s) =
             (if eq_nocase s "FIRST" then 0
              else if eq_nocase s "SECOND" then 1
              else if eq_nocase s "THIRD" then 2
              else if eq_nocase s "FOURTH" then 3
              else -1)%Z) /\
  _to_index (IStr fi_rst) = 0%Z /\
  (forall fw on_gpu devices w bad,
      In bad (identifiers devices) ->
      unavailable (queried fw on_gpu) bad = true ->
      exists d w' pre post,
        select_call fw on_gpu devices w = (Raise (IndexError_device d), w') /\
        is_IndexError (IndexError_device d) = true /\
        identifiers devices = pre ++ d :: post /\
        unavailable (queried fw on_gpu) d = true /\
        Forall (fun y => unavailable (queried fw on_gpu) y = false) pre /\
        _device_list (cls w') = _device_list (cls w)).
Proof.
  split; [reflexivity|].
  split; [intro s; rewrite to_index_upper, !(String.eqb_sym (PyStr.upper s)); reflexivity|].
  split; [exact to_index_nocase|]. split; [exact to_index_table|].
  split; [reflexivity|].
  intros fw on_gpu devices w bad Hin Hbad.
  destruct (find_exists _ _ _ Hin Hbad) as [d Hd].
  destruct (find_first _ _ _ Hd) as (pre & post & Hsplit & Hu & Hpre).
  rewrite select_call_eq, select_from_available_spec, Hd.
  eexists d, _, pre, post. repeat split; auto.
Qed.

(** C2 on the host with two GPUs: [gpu([0, 'third', 1])] raises for
    ['third'] although [0] before it is valid. *)
Lemma C2_identifier_resolution_witness :
  exists d w' pre post,
    select_call host true (Many [IInt 0; IStr "third"; IInt 1]) initial
      = (Raise (IndexError_device d), w') /\
    is_IndexError (IndexError_device d) = true /\
    identifiers (Many [IInt 0; IStr "third"; IInt 1]) = pre ++ d :: post /\
    unavailable (queried host true) d = true /\
    Forall (fun y => unavailable (queried host true) y = false) pre /\
    _device_list (cls w') = _device_list (cls initial).
Proof.
  destruct C2_identifier_resolution as (_ & _ & _ & _ & _ & H).
  apply (H host true (Many [IInt 0; IStr "third"; IInt 1]) initial (IStr "third")).
  - simpl. auto.
  - reflexivity.
Defined.

(** C5: when every identifier is valid and none is ['all'], the call
    succeeds and the selection has one device per identifier, the device at
    that identifier's index, in the order of the identifiers. *)
Theorem C5_selection_order fw on_gpu devices w :
  Forall (fun d => is_all d = false /\
                   (0 <= _to_index d < Z.of_nat (length (queried fw on_gpu)))%Z)
         (identifiers devices) ->
  exists w',
    select_call fw on_gpu devices w = (Ok tt, w') /\
    length (_device_list (cls w')) = length (identifiers devices) /\
    Forall2 (picks (queried fw on_gpu)) (identifiers devices) (_device_list (cls w')).
Proof.
  intro Hvalid.
  destruct (valid_identifiers_select _ _ Hvalid) as [Hfind Hpicks].
  rewrite select_call_eq, select_from_available_spec, Hfind.
  eexists. split; [reflexivity|]. simpl. split; [|exact Hpicks].
  symmetry. exact (Forall2_length Hpicks).
Qed.

(** C5 on the host with two GPUs: [gpu(['second', 0])]. *)
Lemma C5_selection_order_witness :
  exists w',
    select_call host true (Many [IStr "second"; IInt 0]) initial = (Ok tt, w') /\
    length (_device_list (cls w')) = 2%nat /\
    Forall2 (picks (queried host true)) [IStr "second"; IInt 0] (_device_list (cls w')).
Proof.
  apply (C5_selection_order host true (Many [IStr "second"; IInt 0]) initial).
  repeat constructor; simpl; lia.
Defined.

(** C6: selecting ['all'] (also the default argument, and also as a
    one-element list) succeeds and makes the selection the list the framework
    returned for that device kind, in its order. *)
Theorem C6_select_all fw on_gpu w :
  (exists w', select_call fw on_gpu (One (IStr "all")) w = (Ok tt, w') /\
              _device_list (cls w') = queried fw on_gpu) /\
  (exists w', select_call fw on_gpu (Many [IStr "all"]) w = (Ok tt, w') /\
              _device_list (cls w') = queried fw on_gpu).
Proof.
  split; rewrite select_call_eq, select_from_available_spec; simpl;
    eexists; (split; [reflexivity|]); simpl; apply app_nil_r.
Qed.

(** C10: every occurrence of ['all'] contributes the whole queried list at
    its position: a list with ['all'] between [before] and [after] selects
    what [before] selects, then every available device, then what [after]
    selects (and fails only if [before] or [after] does).  So
    [['all', 'all']] selects every device twice and [[0, 'all']] selects the
    first device twice, without an error; the result has duplicates as soon
    as a device is available. *)
Theorem C10_all_per_occurrence (available : list PhysicalDevice) :
  (forall before after,
      _select_from_available (Many (before ++ IStr "all" :: after)) available =
      res_bind (_select_from_available (Many before) available) (fun r1 =>
      res_bind (_select_from_available (Many after) available) (fun r2 =>
      Ok (r1 ++ available ++ r2)))) /\
  _select_from_available (Many [IStr "all"; IStr "all"]) available
    = Ok (available ++ available) /\
  (forall a rest, available = a :: rest ->
      _select_from_available (Many [IInt 0; IStr "all"]) available
        = Ok (a :: a :: rest) /\
      ~ NoDup (a :: a :: rest) /\
      ~ NoDup (available ++ available)).
Proof.
  split; [|split].
  - intros before after. rewrite !select_from_available_spec. simpl.
    rewrite find_app_skip by reflexivity.
    destruct (find (unavailable available) before); [reflexivity|]. simpl.
    destruct (find (unavailable available) after); [reflexivity|]. simpl.
    rewrite flat_map_app. reflexivity.
  - rewrite select_from_available_spec. simpl. now rewrite app_nil_r.
  - intros a rest ->. split; [|split].
    + rewrite select_from_available_spec. simpl. now rewrite app_nil_r.
    + intro H. inversion H as [|? ? Hn _]. apply Hn. now left.
    + intro H. simpl in H. inversion H as [|? ? Hn _]. apply Hn.
      apply in_or_app. right. now left.
Qed.

(** ** Splitting and short names *)

Lemma string_app_assoc (a b c : string) :
  ((a ++ b) ++ c)%string = (a ++ (b ++ c))%string.
Proof. induction a as [|x a IH]; simpl; [reflexivity|now rewrite IH]. Qed.

Lemma split_not_nil sep s : PyStr.split sep s <> [].
Proof.
  destruct s as [|c r]; simpl; [discriminate|].
  destruct (Ascii.eqb c sep); [discriminate|].
  destruct (PyStr.split sep r); discriminate.
Qed.

Lemma split_lacks sep s : PyStr.lacks sep s = true -> PyStr.split sep s = [s].
Proof.
  induction s as [|c r IH]; simpl; [reflexivity|].
  intro H. apply andb_true_iff in H as [Hc Hr].
  apply negb_true_iff in Hc. rewrite Hc, (IH Hr). reflexivity.
Qed.

(** Splitting a string whose last separator is followed by [t]: the
    segments before it, then [t]. *)
Lemma split_app_sep sep s t :
  PyStr.lacks sep t = true ->
  PyStr.split sep (s ++ String sep t)%string = PyStr.split sep s ++ [t].
Proof.
  intro Ht. induction s as [|c r IH]; simpl.
  - rewrite Ascii.eqb_refl, (split_lacks _ _ Ht). reflexivity.
  - destruct (Ascii.eqb c sep).
    + now rewrite IH.
    + rewrite IH. pose proof (split_not_nil sep r) as Hne.
      destruct (PyStr.split sep r); [contradiction|reflexivity].
Qed.

Lemma py_index_last_two {A} (pre : list A) (a b : A) :
  py_index (pre ++ [a; b]) (-2) = Ok a /\ py_index (pre ++ [a; b]) (-1) = Ok b.
Proof.
  unfold py_index. cbv zeta. rewrite length_app. simpl length.
  replace (-2 <? 0)%Z with true by reflexivity.
  replace (-1 <? 0)%Z with true by reflexivity.
  split.
  - replace (-2 + Z.of_nat (length pre + 2))%Z with (Z.of_nat (length pre)) by lia.
    destruct (Z.ltb_spec (Z.of_nat (length pre)) 0); [lia|].
    destruct (Z.leb_spec (Z.of_nat (length pre + 2)) (Z.of_nat (length pre))); [lia|].
    simpl. rewrite Nat2Z.id, nth_error_app2, Nat.sub_diag by lia. reflexivity.
  - replace (-1 + Z.of_nat (length pre + 2))%Z with (Z.of_nat (S (length pre))) by lia.
    destruct (Z.ltb_spec (Z.of_nat (S (length pre))) 0); [lia|].
    destruct (Z.leb_spec (Z.of_nat (length pre + 2)) (Z.of_nat (S (length pre)))); [lia|].
    simpl orb. cbv iota. rewrite Nat2Z.id, nth_error_app2 by lia.
    replace (S (length pre) - length pre)%nat with 1%nat by lia. reflexivity.
Qed.

Lemma py_index_short {A} (l : list A) :
  (length l < 2)%nat -> py_index l (-2) = Raise IndexError_list.
Proof.
  intro H. unfold py_index. cbv zeta.
  replace (-2 <? 0)%Z with true by reflexivity.
  destruct (Z.ltb_spec (-2 + Z.of_nat (length l)) 0); [reflexivity|lia].
Qed.

(** A list of at least two elements ends in two of them. *)
Lemma last_two {A} (l : list A) :
  (2 <= length l)%nat -> exists pre a b, l = pre ++ [a; b].
Proof.
  induction l as [|x l IH]; simpl; [lia|].
  intro H. destruct l as [|y l]; [simpl in H; lia|].
  destruct l as [|z l].
  - now exists [], x, y.
  - destruct IH as (pre & a & b & E); [simpl; lia|].
    exists (x :: pre), a, b. now rewrite E.
Qed.

Lemma short_name_parts d pre a b :
  PyStr.split colon (name d) = pre ++ [a; b] ->
  short_name d = Ok ("/" ++ PyStr.lower a ++ ":" ++ b)%string.
Proof.
  intro E. unfold short_name. cbv zeta. rewrite E.
  destruct (py_index_last_two pre a b) as [-> ->]. reflexivity.
Qed.

Lemma well_named_short_name d : well_named d -> exists n, short_name d = Ok n.
Proof.
  intro H. destruct (last_two _ H) as (pre & a & b & E).
  eexists. exact (short_name_parts d pre a b E).
Qed.

Lemma short_names_loop_acc ds acc :
  short_names_loop ds acc =
  res_bind (short_names_loop ds []) (fun r => Ok (acc ++ r)).
Proof.
  revert acc. induction ds as [|d ds IH]; intro acc; simpl.
  - now rewrite app_nil_r.
  - destruct (short_name d) as [n|e]; simpl; [|reflexivity].
    rewrite (IH (acc ++ [n])), (IH [n]).
    destruct (short_names_loop ds []); simpl; [|reflexivity].
    now rewrite <- app_assoc.
Qed.

Lemma short_names_cons d ds :
  _short_names (d :: ds) =
  res_bind (short_name d) (fun n =>
  res_bind (_short_names ds) (fun ns => Ok (n :: ns))).
Proof.
  unfold _short_names. simpl.
  destruct (short_name d) as [n|e]; simpl; [|reflexivity].
  now rewrite short_names_loop_acc.
Qed.

(** [_short_names] returns the short names of the devices, in order, and
    raises as soon as one device has none. *)
Lemma short_names_Forall2 ds ns :
  _short_names ds = Ok ns <-> Forall2 (fun d n => short_name d = Ok n) ds ns.
Proof.
  revert ns. induction ds as [|d ds IH]; intro ns.
  - unfold _short_names. simpl. split.
    + intros [= <-]. constructor.
    + intro H. inversion H. reflexivity.
  - rewrite short_names_cons. split.
    + destruct (short_name d) as [n|e] eqn:En; simpl; [|discriminate].
      destruct (_short_names ds) as [ns'|e] eqn:Ens; simpl; [|discriminate].
      intros [= <-]. constructor; [exact En|]. now apply IH.
    + intro H. inversion H as [|? n ? ns' Hn Hrest]; subst.
      rewrite Hn. simpl. apply IH in Hrest. rewrite Hrest. reflexivity.
Qed.

Lemma short_names_total ds :
  Forall well_named ds -> exists ns, _short_names ds = Ok ns.
Proof.
  induction 1 as [|d ds Hd _ [ns IH]].
  - now exists [].
  - destruct (well_named_short_name d Hd) as [n Hn].
    exists (n :: ns). rewrite short_names_cons, Hn, IH. reflexivity.
Qed.

(** C7: the short name of a device is ["/" + a.lower() + ":" + b] where [a]
    and [b] are the second-to-last and the last segment of its name split on
    [':'] (a name with fewer than two segments has no short name: the
    subscript raises); [_short_names] formats every device of its list so, in
    order; and a name ending in [device:GPU:2] formats to [/gpu:2]. *)
Theorem C7_short_name_format :
  (forall d pre a b,
      PyStr.split colon (name d) = pre ++ [a; b] ->
      short_name d = Ok ("/" ++ PyStr.lower a ++ ":" ++ b)%string) /\
  (forall d, (length (PyStr.split colon (name d)) < 2)%nat ->
             short_name d = Raise IndexError_list) /\
  (forall ds ns, _short_names ds = Ok ns <->
                 Forall2 (fun d n => short_name d = Ok n) ds ns) /\
  (forall prefix ty,
      _short_names [mkDevice (prefix ++ "device:GPU:2")%string ty] = Ok ["/gpu:2"%string]).
Proof.
  split; [exact short_name_parts|]. split; [|split; [exact short_names_Forall2|]].
  - intros d H. unfold short_name. cbv zeta. now rewrite (py_index_short _ H).
  - intros prefix ty. apply short_names_Forall2. constructor; [|constructor].
    apply (short_name_parts _ (PyStr.split colon (prefix ++ "device")%string) "GPU" "2").
    simpl name.
    replace (prefix ++ "device:GPU:2")%string
      with (((prefix ++ "device") ++ String colon "GPU") ++ String colon "2")%string
      by (rewrite !string_app_assoc; reflexivity).
    rewrite !split_app_sep by reflexivity.
    rewrite <- app_assoc. reflexivity.
Qed.

(** C7 on the second GPU of the host. *)
Lemma C7_short_name_format_witness :
  short_name gpu1 = Ok "/gpu:1"%string.
Proof.
  apply (proj1 C7_short_name_format gpu1 ["/physical_device"%string] "GPU" "1").
  reflexivity.
Defined.

(** ** Building the strategy *)

Lemma growth_events_cons enable g gs o os :
  growth_events enable (g :: gs) (o :: os) =
  EvSetMemoryGrowth g enable o :: growth_events enable gs os.
Proof. reflexivity. Qed.

(** The loop over the GPUs changes nothing but the trace: one call per GPU,
    in order, with the current flag, until a call raises. *)
Lemma growth_loop_run fw gpus : forall w,
  exists outcomes,
    cls (snd (growth_loop fw gpus w)) = cls w /\
    fresh (snd (growth_loop fw gpus w)) = fresh w /\
    trace (snd (growth_loop fw gpus w)) =
      trace w ++ growth_events (_growth (cls w)) gpus outcomes /\
    ((fst (growth_loop fw gpus w) = Ok tt /\
      outcomes = repeat None (length gpus)) \/
     (exists k e, (k < length gpus)%nat /\
                  fst (growth_loop fw gpus w) = Raise e /\
                  outcomes = repeat None k ++ [Some e] /\
                  raised_by fw e)).
Proof.
  induction gpus as [|g gs IH]; intro w.
  - exists []. simpl. rewrite app_nil_r. auto 10.
  - simpl. unfold bind, get_cls, call_set_memory_growth.
    destruct (set_memory_growth fw (trace w) g (_growth (cls w))) as [e|] eqn:Eo.
    + exists [Some e]. simpl.
      split; [reflexivity|]. split; [reflexivity|].
      split; [unfold growth_events; simpl; now rewrite combine_nil|].
      right. exists 0%nat, e. repeat split; auto; try lia.
      now exists (trace w), g, (_growth (cls w)).
    + match goal with |- context [growth_loop fw gs ?w1] =>
        destruct (IH w1) as (os & Hc & Hf & Ht & Hr) end.
      simpl in Hc, Hf, Ht. exists (None :: os).
      rewrite Hc, Hf, Ht, growth_events_cons, <- app_assoc.
      split; [reflexivity|]. split; [reflexivity|]. split; [reflexivity|].
      destruct Hr as [[Hok Hos]|(k & e & Hk & Hraise & Hos & Hby)].
      * left. split; [exact Hok|]. simpl. now rewrite Hos.
      * right. exists (S k), e. repeat split; auto; try lia.
        simpl. now rewrite Hos.
Qed.

(** "Limit GPU memory usage" changes nothing but the trace; it makes no call
    unless the device type is ['gpu'], and lets through only an exception
    that is not a [RuntimeError]. *)
Lemma limit_gpu_memory_run fw w :
  exists outcomes,
    cls (snd (limit_gpu_memory fw w)) = cls w /\
    fresh (snd (limit_gpu_memory fw w)) = fresh w /\
    trace (snd (limit_gpu_memory fw w)) =
      trace w ++ growth_events (_growth (cls w))
                               (list_physical_devices fw "GPU") outcomes /\
    (device_is (_device (cls w)) "gpu" = false ->
       fst (limit_gpu_memory fw w) = Ok tt /\ outcomes = []) /\
    (device_is (_device (cls w)) "gpu" = true ->
       (fst (limit_gpu_memory fw w) = Ok tt /\
        outcomes = repeat None (length (list_physical_devices fw "GPU"))) \/
       (exists k e, (k < length (list_physical_devices fw "GPU"))%nat /\
                    outcomes = repeat None k ++ [Some e] /\
                    raised_by fw e /\
                    fst (limit_gpu_memory fw w) =
                      if is_RuntimeError e then Ok tt else Raise e)).
Proof.
  unfold limit_gpu_memory, bind, get_cls.
  destruct (device_is (_device (cls w)) "gpu") eqn:Hd.
  - destruct (growth_loop_run fw (list_physical_devices fw "GPU") w)
      as (os & Hc & Hf & Ht & Hr).
    unfold try_except_RuntimeError.
    destruct (growth_loop fw (list_physical_devices fw "GPU") w) as [r w1] eqn:E.
    simpl in Hc, Hf, Ht, Hr. exists os.
    destruct Hr as [[-> Hos]|(k & e & Hk & -> & Hos & Hby)].
    + simpl. repeat split; auto; try discriminate.
    + destruct (is_RuntimeError e) eqn:He; simpl; repeat split; auto;
        try discriminate; intros _; right; exists k, e; rewrite He; auto.
  - exists []. simpl. unfold growth_events. rewrite combine_nil, app_nil_r.
    repeat split; auto; discriminate.
Qed.

Lemma pick_strategy_eq names w :
  pick_strategy names w =
  (Ok (mkStrategy (fresh w) (strategy_for names)),
   mkWorld (cls w) (S (fresh w))
           (trace w ++ [EvNewStrategy (mkStrategy (fresh w) (strategy_for names))])).
Proof.
  unfold pick_strategy. destruct names as [|n [|m names]]; reflexivity.
Qed.

(** The constructor argument has the shape the specification gives for the
    selection. *)
Lemma strategy_for_shape ds ns :
  Forall2 (fun d n => short_name d = Ok n) ds ns ->
  shape_by_count ds (strategy_for ns).
Proof.
  intro H. destruct H as [|d n ds ns Hn H]; simpl; [reflexivity|].
  destruct H as [|d' n' ds ns Hn' H]; simpl.
  - now exists n.
  - exists (n :: n' :: ns). split; [|reflexivity]. repeat constructor; assumption.
Qed.

Lemma build_cached fw w s :
  _strategy (cls w) = Some s -> _build_strategy fw w = (Ok tt, w).
Proof.
  intro H. unfold _build_strategy, bind, get_cls. now rewrite H.
Qed.

(** A build with nothing cached: the growth phase, the short names, the
    constructor call, the assignment. *)
Lemma build_fresh fw w :
  _strategy (cls w) = None ->
  _build_strategy fw w =
  match limit_gpu_memory fw w with
  | (Raise e, w1) => (Raise e, w1)
  | (Ok _, w1) =>
      match _short_names (_device_list (cls w1)) with
      | Raise e => (Raise e, w1)
      | Ok names =>
          let s := mkStrategy (fresh w1) (strategy_for names) in
          (Ok tt,
           mkWorld (mkDM (_device (cls w1)) (_device_list (cls w1)) (Some s)
                         (_scope (cls w1)) (_growth (cls w1)))
                   (S (fresh w1)) (trace w1 ++ [EvNewStrategy s]))
      end
  end.
Proof.
  intro H. unfold _build_strategy. unfold bind at 1. unfold get_cls at 1.
  rewrite H. unfold bind at 1.
  destruct (limit_gpu_memory fw w) as [[[]|e] w1]; [|reflexivity].
  unfold bind, get_cls, lift.
  destruct (_short_names (_device_list (cls w1))) as [names|e]; [|reflexivity].
  rewrite pick_strategy_eq. reflexivity.
Qed.

Lemma limit_gpu_memory_ok fw w :
  only_RuntimeError fw -> fst (limit_gpu_memory fw w) = Ok tt.
Proof.
  intro Honly.
  destruct (limit_gpu_memory_run fw w) as (os & _ & _ & _ & Hoff & Hon).
  destruct (device_is (_device (cls w)) "gpu").
  - destruct (Hon eq_refl) as [[Hok _]|(k & e & _ & _ & (tr & g & b & Hby) & Hr)];
      [exact Hok|].
    now rewrite (Honly _ _ _ _ Hby) in Hr.
  - now destruct (Hoff eq_refl).
Qed.

Lemma limit_gpu_memory_returns fw w :
  device_is (_device (cls w)) "gpu" = false \/ only_RuntimeError fw ->
  fst (limit_gpu_memory fw w) = Ok tt.
Proof.
  intros [Hd|Honly]; [|now apply limit_gpu_memory_ok].
  destruct (limit_gpu_memory_run fw w) as (os & _ & _ & _ & Hoff & _).
  now destruct (Hoff Hd).
Qed.

(** A build that returns leaves a strategy cached; one that raises leaves
    the cache as it was. *)
Lemma build_outcome fw w r w' :
  _build_strategy fw w = (r, w') ->
  _device_list (cls w') = _device_list (cls w) /\
  match r with
  | Ok _ => exists s, _strategy (cls w') = Some s
  | Raise _ => _strategy (cls w') = _strategy (cls w)
  end.
Proof.
  destruct (_strategy (cls w)) as [s|] eqn:Hs.
  - rewrite (build_cached fw w s Hs). intros [= <- <-]. split; [reflexivity|].
    now exists s.
  - rewrite (build_fresh fw w Hs).
    destruct (limit_gpu_memory_run fw w) as (os & Hc & _).
    destruct (limit_gpu_memory fw w) as [[[]|e] w1]; simpl in Hc.
    + destruct (_short_names (_device_list (cls w1))) as [names|e].
      * intros [= <- <-]. simpl. rewrite Hc. split; [reflexivity|]. eauto.
      * intros [= <- <-]. now rewrite Hc.
    + intros [= <- <-]. now rewrite Hc.
Qed.

Lemma strategy_eq fw w :
  strategy fw w =
  match _build_strategy fw w with
  | (Ok _, w') => (Ok (_strategy (cls w')), w')
  | (Raise e, w') => (Raise e, w')
  end.
Proof.
  unfold strategy, bind. now destruct (_build_strategy fw w) as [[[]|e] w'].
Qed.

Lemma scope_eq fw w :
  scope fw w =
  match _build_strategy fw w with
  | (Ok _, w') =>
      match _strategy (cls w') with
      | Some s =>
          (Ok (mkScope (fresh w') s),
           mkWorld (cls w') (S (fresh w'))
                   (trace w' ++ [EvNewScope (mkScope (fresh w') s)]))
      | None => (Raise AttributeError, w')
      end
  | (Raise e, w') => (Raise e, w')
  end.
Proof.
  unfold scope. unfold bind at 1.
  destruct (_build_strategy fw w) as [[[]|e] w']; [|reflexivity].
  unfold_monad. now destruct (_strategy (cls w')).
Qed.

Lemma replica_eq fw w :
  replica fw w =
  match _build_strategy fw w with
  | (Ok _, w') =>
      match _strategy (cls w') with
      | Some s => (Ok (num_replicas_in_sync fw (strategy_kind s)), w')
      | None => (Raise AttributeError, w')
      end
  | (Raise e, w') => (Raise e, w')
  end.
Proof.
  unfold replica, bind. rewrite strategy_eq.
  destruct (_build_strategy fw w) as [[[]|e] w']; [|reflexivity].
  now destruct (_strategy (cls w')).
Qed.

(** C1: a build (nothing cached) that returns caches a strategy whose shape
    follows from the number of selected devices alone: none, the
    single-device strategy on ["/cpu:0"]; one, the single-device strategy on
    its short name; two or more, the mirrored strategy over the short names
    in selection order.  A build that raises caches nothing.  The build
    returns whenever every selected name has two segments and the framework
    raises at most [RuntimeError] while setting memory growth.  The property
    [strategy], [replica] and [scope] go through this build. *)
Theorem C1_strategy_shape fw w :
  _strategy (cls w) = None ->
  (forall r w', _build_strategy fw w = (r, w') ->
     match r with
     | Ok _ => exists s, _strategy (cls w') = Some s /\
                         shape_by_count (_device_list (cls w)) (strategy_kind s)
     | Raise _ => _strategy (cls w') = None
     end) /\
  (Forall well_named (_device_list (cls w)) -> only_RuntimeError fw ->
     exists w', _build_strategy fw w = (Ok tt, w')) /\
  (forall w', _build_strategy fw w = (Ok tt, w') ->
     exists s, _strategy (cls w') = Some s /\
       strategy fw w = (Ok (Some s), w') /\
       replica fw w = (Ok (num_replicas_in_sync fw (strategy_kind s)), w') /\
       exists w'', scope fw w = (Ok (mkScope (fresh w') s), w'') /\
                   _strategy (cls w'') = Some s).
Proof.
  intro Hnone. split; [|split].
  - intros r w'. rewrite (build_fresh fw w Hnone).
    destruct (limit_gpu_memory_run fw w) as (os & Hc & _).
    destruct (limit_gpu_memory fw w) as [[[]|e] w1]; simpl in Hc.
    + rewrite Hc.
      destruct (_short_names (_device_list (cls w))) as [names|e] eqn:En.
      * intros [= <- <-]. simpl. eexists. split; [reflexivity|]. simpl.
        apply strategy_for_shape. now apply short_names_Forall2.
      * intros [= <- <-]. now rewrite Hc.
    + intros [= <- <-]. now rewrite Hc.
  - intros Hnames Honly. rewrite (build_fresh fw w Hnone).
    pose proof (limit_gpu_memory_ok fw w Honly) as Hok.
    destruct (limit_gpu_memory_run fw w) as (os & Hc & _).
    destruct (limit_gpu_memory fw w) as [r w1]. simpl in Hok, Hc. subst r.
    rewrite Hc. destruct (short_names_total _ Hnames) as [ns ->]. eauto.
  - intros w' Hb. destruct (build_outcome fw w _ _ Hb) as [_ [s Hs]].
    exists s. rewrite strategy_eq, replica_eq, scope_eq, Hb, Hs.
    repeat split; eauto.
Qed.

(** C1 on the host after [gpu()]: both GPUs are selected, their names are
    well formed, and the build returns. *)
Lemma C1_strategy_shape_witness :
  exists w', _build_strategy host after_gpu_all = (Ok tt, w').
Proof.
  apply (proj1 (proj2 (C1_strategy_shape host after_gpu_all eq_refl))).
  - repeat constructor; unfold well_named; simpl; lia.
  - intros tr g b e H. discriminate H.
Defined.

(** ** Memory growth *)

(** What the property [strategy] does when nothing is cached. *)
Lemma strategy_fresh fw w :
  _strategy (cls w) = None ->
  strategy fw w =
  match limit_gpu_memory fw w with
  | (Raise e, w1) => (Raise e, w1)
  | (Ok _, w1) =>
      match _short_names (_device_list (cls w1)) with
      | Raise e => (Raise e, w1)
      | Ok names =>
          let s := mkStrategy (fresh w1) (strategy_for names) in
          (Ok (Some s),
           mkWorld (mkDM (_device (cls w1)) (_device_list (cls w1)) (Some s)
                         (_scope (cls w1)) (_growth (cls w1)))
                   (S (fresh w1)) (trace w1 ++ [EvNewStrategy s]))
      end
  end.
Proof.
  intro H. rewrite strategy_eq, (build_fresh fw w H).
  destruct (limit_gpu_memory fw w) as [[[]|e] w1]; [|reflexivity].
  now destruct (_short_names (_device_list (cls w1))).
Qed.

(** C4, as the code has it: a build makes its [set_memory_growth] calls
    before anything else, and only when the device type is ['gpu']: one call
    per GPU the framework reports, in order, with the current flag, up to and
    including the first call that raises.  A [RuntimeError] raised there is
    caught and the strategy is constructed all the same; any other exception
    leaves the build and nothing is cached. *)
Theorem C4_growth_best_effort fw w :
  _strategy (cls w) = None ->
  exists outcomes,
    trace (snd (strategy fw w)) =
      trace w ++
      growth_events (_growth (cls w)) (list_physical_devices fw "GPU") outcomes ++
      match fst (strategy fw w) with
      | Ok (Some s) => [EvNewStrategy s]
      | _ => []
      end /\
    (device_is (_device (cls w)) "gpu" = false -> outcomes = []) /\
    (device_is (_device (cls w)) "gpu" = true ->
       outcomes = repeat None (length (list_physical_devices fw "GPU")) \/
       exists k e, (k < length (list_physical_devices fw "GPU"))%nat /\
                   outcomes = repeat None k ++ [Some e] /\
                   raised_by fw e /\
                   (is_RuntimeError e = false ->
                      fst (strategy fw w) = Raise e /\
                      _strategy (cls (snd (strategy fw w))) = None)) /\
    (only_RuntimeError fw -> Forall well_named (_device_list (cls w)) ->
       exists s, fst (strategy fw w) = Ok (Some s) /\
                 _strategy (cls (snd (strategy fw w))) = Some s /\
                 shape_by_count (_device_list (cls w)) (strategy_kind s)).
Proof.
  intro Hnone. rewrite (strategy_fresh fw w Hnone).
  pose proof (limit_gpu_memory_ok fw w) as Hok.
  destruct (limit_gpu_memory_run fw w) as (os & Hc & _ & Ht & Hoff & Hon).
  destruct (limit_gpu_memory fw w) as [r w1]. simpl in Hc, Ht, Hoff, Hon, Hok.
  exists os. split; [|split; [|split]].
  - destruct r as [[]|e]; [|simpl; now rewrite Ht, app_nil_r].
    destruct (_short_names (_device_list (cls w1))); simpl.
    + now rewrite Ht, <- app_assoc.
    + now rewrite Ht, app_nil_r.
  - intro Hd. now destruct (Hoff Hd).
  - intro Hd. destruct (Hon Hd) as [[_ Hos]|(k & e & Hk & Hos & Hby & Hr)];
      [now left|right].
    exists k, e. split; [exact Hk|]. split; [exact Hos|]. split; [exact Hby|].
    intro He. rewrite He in Hr. subst r. simpl. now rewrite Hc.
  - intros Honly Hnames. rewrite (Hok Honly), Hc.
    destruct (short_names_total _ Hnames) as [ns Hns]. rewrite Hns. simpl.
    eexists. repeat split.
    apply strategy_for_shape. now apply short_names_Forall2.
Qed.

(** C4 where the runtime is initialised: both GPUs are selected, the first
    [set_memory_growth] raises [RuntimeError], and the build goes on. *)
Lemma C4_growth_best_effort_witness :
  exists outcomes,
    trace (snd (strategy host_late after_gpu_all)) =
      trace after_gpu_all ++
      growth_events (_growth (cls after_gpu_all))
                    (list_physical_devices host_late "GPU") outcomes ++
      match fst (strategy host_late after_gpu_all) with
      | Ok (Some s) => [EvNewStrategy s]
      | _ => []
      end /\
    (device_is (_device (cls after_gpu_all)) "gpu" = false -> outcomes = []) /\
    (device_is (_device (cls after_gpu_all)) "gpu" = true ->
       outcomes = repeat None (length (list_physical_devices host_late "GPU")) \/
       exists k e, (k < length (list_physical_devices host_late "GPU"))%nat /\
                   outcomes = repeat None k ++ [Some e] /\
                   raised_by host_late e /\
                   (is_RuntimeError e = false ->
                      fst (strategy host_late after_gpu_all) = Raise e /\
                      _strategy (cls (snd (strategy host_late after_gpu_all))) = None)) /\
    (only_RuntimeError host_late ->
     Forall well_named (_device_list (cls after_gpu_all)) ->
       exists s, fst (strategy host_late after_gpu_all) = Ok (Some s) /\
                 _strategy (cls (snd (strategy host_late after_gpu_all))) = Some s /\
                 shape_by_count (_device_list (cls after_gpu_all)) (strategy_kind s)).
Proof.
  apply (C4_growth_best_effort host_late after_gpu_all). reflexivity.
Defined.

(** C4 as the specification words it fails in three ways.  With the CPU
    selected a build makes no [set_memory_growth] call at all.  With the GPUs
    selected and an initialised runtime the first call raises and the second
    GPU is never tried.  And a [ValueError] from [set_memory_growth] is not
    caught: the build raises it and caches nothing. *)
Lemma C4_counterexample :
  (_strategy (cls after_cpu_all) = None /\
   fst (strategy host after_cpu_all)
     = Ok (Some (mkStrategy 0 (OneDeviceStrategy "/cpu:0"))) /\
   ~ growth_applied (trace (snd (strategy host after_cpu_all))) gpu0
                    (_growth (cls after_cpu_all))) /\
  (_strategy (cls after_gpu_all) = None /\
   fst (strategy host_late after_gpu_all)
     = Ok (Some (mkStrategy 0 (MirroredStrategy ["/gpu:0"; "/gpu:1"]%string))) /\
   ~ growth_applied (trace (snd (strategy host_late after_gpu_all))) gpu1
                    (_growth (cls after_gpu_all))) /\
  (fst (strategy host_invalid after_gpu_all) = Raise (ValueError 0) /\
   _strategy (cls (snd (strategy host_invalid after_gpu_all))) = None).
Proof.
  split; [|split].
  - split; [reflexivity|]. split; [reflexivity|].
    intros [o H]. vm_compute in H. destruct H as [H|[]]. discriminate H.
  - split; [reflexivity|]. split; [reflexivity|].
    intros [o H]. vm_compute in H. destruct H as [H|[H|[]]]; discriminate H.
  - split; reflexivity.
Qed.

(** ** What the methods leave alone *)

Lemma extends_refl w : extends w w.
Proof. split; [reflexivity|]. exists []. split; [now rewrite app_nil_r|constructor]. Qed.

Lemma extends_trans w1 w2 w3 : extends w1 w2 -> extends w2 w3 -> extends w1 w3.
Proof.
  intros [Hs1 (e1 & Ht1 & Hq1)] [Hs2 (e2 & Ht2 & Hq2)]. split; [congruence|].
  exists (e1 ++ e2). split; [now rewrite Ht2, Ht1, app_assoc|].
  apply Forall_app. now split.
Qed.

Lemma growth_events_quiet enable gpus outcomes :
  quiet (growth_events enable gpus outcomes).
Proof.
  unfold quiet, growth_events. apply Forall_forall. intros e He.
  apply in_map_iff in He as (go & <- & _). reflexivity.
Qed.

Lemma consistent_frame w w' :
  _strategy (cls w') = _strategy (cls w) ->
  _device_list (cls w') = _device_list (cls w) ->
  (fresh w <= fresh w')%nat ->
  consistent w -> consistent w'.
Proof.
  unfold consistent. intros -> -> Hf.
  destruct (_strategy (cls w)); [|trivial]. intros [Hid Hshape]. split; [lia|exact Hshape].
Qed.

(** [cpu] and [gpu] touch neither the stored scope nor the framework. *)
Lemma select_call_frame fw on_gpu devices w :
  extends w (snd (select_call fw on_gpu devices w)) /\
  (consistent w -> consistent (snd (select_call fw on_gpu devices w))).
Proof.
  rewrite select_call_eq.
  destruct (_select_from_available devices (queried fw on_gpu)); simpl.
  - split; [|intros _; exact I].
    split; [reflexivity|]. exists []. split; [now rewrite app_nil_r|constructor].
  - split; [|apply consistent_frame; simpl; auto].
    split; [reflexivity|]. exists []. split; [now rewrite app_nil_r|constructor].
Qed.

(** [_build_strategy] keeps the stored scope, enters and leaves no scope, and
    keeps the cache consistent. *)
Lemma build_frame fw w :
  extends w (snd (_build_strategy fw w)) /\
  (fresh w <= fresh (snd (_build_strategy fw w)))%nat /\
  (consistent w -> consistent (snd (_build_strategy fw w))).
Proof.
  destruct (_strategy (cls w)) as [s|] eqn:Hs.
  - rewrite (build_cached fw w s Hs). simpl. split; [apply extends_refl|]. split; auto.
  - rewrite (build_fresh fw w Hs).
    destruct (limit_gpu_memory_run fw w) as (os & Hc & Hf & Ht & _).
    assert (Hext : extends w (snd (limit_gpu_memory fw w))).
    { split; [now rewrite Hc|]. eexists. split; [exact Ht|apply growth_events_quiet]. }
    destruct (limit_gpu_memory fw w) as [[[]|e] w1]; simpl in Hc, Hf, Ht, Hext.
    + destruct (_short_names (_device_list (cls w1))) as [names|e] eqn:En; simpl.
      * split; [|split; [lia|]].
        -- apply (extends_trans _ w1); [exact Hext|]. split; [reflexivity|].
           eexists. split; [reflexivity|]. now repeat constructor.
        -- intros _. unfold consistent. simpl. split; [lia|].
           apply strategy_for_shape. now apply short_names_Forall2.
      * split; [exact Hext|]. split; [lia|].
        intros _. unfold consistent. now rewrite Hc, Hs.
    + simpl. split; [exact Hext|]. split; [lia|].
      intros _. unfold consistent. now rewrite Hc, Hs.
Qed.

Lemma strategy_frame fw w :
  extends w (snd (strategy fw w)) /\
  (consistent w -> consistent (snd (strategy fw w))).
Proof.
  rewrite strategy_eq. destruct (build_frame fw w) as (He & _ & Hc).
  destruct (_build_strategy fw w) as [[[]|e] w']; simpl in *; auto.
Qed.

Lemma replica_frame fw w :
  extends w (snd (replica fw w)) /\
  (consistent w -> consistent (snd (replica fw w))).
Proof.
  rewrite replica_eq. destruct (build_frame fw w) as (He & _ & Hc).
  destruct (_build_strategy fw w) as [[[]|e] w']; simpl in *; [|auto].
  destruct (_strategy (cls w')); simpl; auto.
Qed.

Lemma scope_frame fw w :
  extends w (snd (scope fw w)) /\
  (fresh w <= fresh (snd (scope fw w)))%nat /\
  (consistent w -> consistent (snd (scope fw w))).
Proof.
  rewrite scope_eq. destruct (build_frame fw w) as (He & Hf & Hc).
  destruct (_build_strategy fw w) as [[[]|e] w']; simpl in He, Hf, Hc;
    [|simpl; auto].
  destruct (_strategy (cls w')) as [s|] eqn:Hs; simpl; [|auto].
  split; [|split; [lia|]].
  - apply (extends_trans _ w'); [exact He|]. split; [reflexivity|].
    eexists. split; [reflexivity|]. now repeat constructor.
  - intro H. apply (consistent_frame w'); simpl; auto.
Qed.

(** ** Entering and leaving the scope *)

Lemma enter_eq fw w :
  __enter__ fw w =
  match scope fw w with
  | (Ok sc, w1) =>
      (Ok (scope_strategy sc),
       mkWorld (mkDM (_device (cls w1)) (_device_list (cls w1)) (_strategy (cls w1))
                     (Some sc) (_growth (cls w1)))
               (fresh w1) (trace w1 ++ [EvScopeEnter sc]))
  | (Raise e, w1) => (Raise e, w1)
  end.
Proof.
  unfold __enter__. unfold bind at 1.
  destruct (scope fw w) as [[sc|e] w1]; reflexivity.
Qed.

Lemma exit_eq fw exc w :
  __exit__ fw exc w =
  match _scope (cls w) with
  | Some sc =>
      (Ok (scope_exit_result fw sc exc),
       mkWorld (cls w) (fresh w) (trace w ++ [EvScopeExit sc exc]))
  | None => (Raise AttributeError, w)
  end.
Proof.
  unfold __exit__. unfold_monad. now destruct (_scope (cls w)).
Qed.

Lemma enter_consistent fw w :
  consistent w -> consistent (snd (__enter__ fw w)).
Proof.
  intro H. rewrite enter_eq. destruct (scope_frame fw w) as (_ & _ & Hc).
  specialize (Hc H). destruct (scope fw w) as [[sc|e] w1]; simpl in *; [|exact Hc].
  apply (consistent_frame w1); simpl; auto.
Qed.

Lemma exit_consistent fw exc w :
  consistent w -> consistent (snd (__exit__ fw exc w)).
Proof.
  intro H. rewrite exit_eq. destruct (_scope (cls w)); simpl; [|exact H].
  apply (consistent_frame w); simpl; auto.
Qed.

(** Code that enters no [with] block leaves the stored scope alone and
    neither enters nor leaves a scope. *)
Lemma exec_extends fw body : forall w,
  no_with body = true -> extends w (snd (exec fw body w)).
Proof.
  induction body as [|a IHa b IHb|ds|ds| | | | |v|e|body IH|body IH];
    intros w Hn; simpl in Hn |- *; try discriminate Hn.
  - apply extends_refl.
  - apply andb_true_iff in Hn as [Ha Hb]. unfold bind.
    specialize (IHa w Ha). destruct (exec fw a w) as [[[]|e] w1]; simpl in *; [|exact IHa].
    exact (extends_trans _ _ _ IHa (IHb w1 Hb)).
  - exact (proj1 (select_call_frame fw false ds w)).
  - exact (proj1 (select_call_frame fw true ds w)).
  - unfold discard, bind, ret. pose proof (proj1 (strategy_frame fw w)) as H.
    now destruct (strategy fw w) as [[?|?] ?].
  - unfold discard, bind, ret. pose proof (proj1 (replica_frame fw w)) as H.
    now destruct (replica fw w) as [[?|?] ?].
  - unfold discard, bind, ret. pose proof (proj1 (scope_frame fw w)) as H.
    now destruct (scope fw w) as [[?|?] ?].
  - apply extends_refl.
  - split; [reflexivity|]. exists []. split; [simpl; now rewrite app_nil_r|constructor].
  - apply extends_refl.
  - specialize (IH w Hn). now destruct (exec fw body w) as [[[]|e] w1].
Qed.

(** Whatever the client code does, the cache stays consistent. *)
Lemma exec_consistent fw p : forall w,
  consistent w -> consistent (snd (exec fw p w)).
Proof.
  induction p as [|a IHa b IHb|ds|ds| | | | |v|e|body IH|body IH];
    intros w Hw; simpl.
  - exact Hw.
  - unfold bind. specialize (IHa w Hw).
    destruct (exec fw a w) as [[[]|e] w1]; simpl in *; [|exact IHa].
    exact (IHb w1 IHa).
  - exact (proj2 (select_call_frame fw false ds w) Hw).
  - exact (proj2 (select_call_frame fw true ds w) Hw).
  - unfold discard, bind, ret. pose proof (proj2 (strategy_frame fw w) Hw) as H.
    now destruct (strategy fw w) as [[?|?] ?].
  - unfold discard, bind, ret. pose proof (proj2 (replica_frame fw w) Hw) as H.
    now destruct (replica fw w) as [[?|?] ?].
  - unfold discard, bind, ret.
    pose proof (proj2 (proj2 (scope_frame fw w)) Hw) as H.
    now destruct (scope fw w) as [[?|?] ?].
  - exact Hw.
  - apply (consistent_frame w); simpl; auto.
  - exact Hw.
  - specialize (IH w Hw). now destruct (exec fw body w) as [[[]|e] w1].
  - unfold with_block. pose proof (enter_consistent fw w Hw) as H1.
    destruct (__enter__ fw w) as [[v|e] w1]; simpl in H1; [|exact H1].
    specialize (IH w1 H1). destruct (exec fw body w1) as [[[]|e] w2]; simpl in IH.
    + pose proof (exit_consistent fw None w2 IH) as H3.
      now destruct (__exit__ fw None w2) as [[?|?] ?].
    + pose proof (exit_consistent fw (Some e) w2 IH) as H3.
      destruct (__exit__ fw (Some e) w2) as [[r|?] ?]; [|exact H3].
      now destruct (truthy r).
Qed.

(** C8, as the code has it: for a [with device_manager:] block whose body
    enters no further such block, [__enter__] builds the strategy if none is
    cached, obtains a scope of it, stores and enters that scope; the body
    leaves the stored scope alone; [__exit__] hands the exception information
    to that same scope and returns what the scope's [__exit__] returns; so
    the scope entered is left exactly at the end of the block, with [None]
    after a normal body and with the exception after a raising one, which is
    raised again unless the scope asks to suppress it. *)
Theorem C8_scoped_acquisition fw body w v w1 :
  no_with body = true ->
  __enter__ fw w = (Ok v, w1) ->
  exists sc pre evs,
    _strategy (cls w1) = Some v /\
    (forall s0, _strategy (cls w) = Some s0 -> v = s0) /\
    scope_strategy sc = v /\
    _scope (cls w1) = Some sc /\
    trace w1 = trace w ++ pre ++ [EvNewScope sc; EvScopeEnter sc] /\
    quiet pre /\
    trace (snd (exec fw body w1)) = trace w1 ++ evs /\
    quiet evs /\
    (forall exc, fst (__exit__ fw exc (snd (exec fw body w1)))
                 = Ok (scope_exit_result fw sc exc)) /\
    fst (exec fw (With body) w) =
      match fst (exec fw body w1) with
      | Ok _ => Ok tt
      | Raise e => if truthy (scope_exit_result fw sc (Some e)) then Ok tt else Raise e
      end /\
    trace (snd (exec fw (With body) w)) =
      trace w1 ++ evs ++ [EvScopeExit sc (exc_info (fst (exec fw body w1)))].
Proof.
  intros Hbody Henter.
  pose proof Henter as Hsc. rewrite enter_eq, scope_eq in Hsc.
  destruct (build_frame fw w) as ((_ & pre & Hpre & Hq) & _ & _).
  pose proof (build_cached fw w) as Hcached.
  destruct (_build_strategy fw w) as [[[]|e] w'] eqn:Hb; [|discriminate Hsc].
  destruct (_strategy (cls w')) as [s|] eqn:Hs; [|discriminate Hsc].
  injection Hsc as <- <-. simpl in Hpre.
  destruct (exec_extends fw body
              (mkWorld (mkDM (_device (cls w')) (_device_list (cls w')) (_strategy (cls w'))
                             (Some (mkScope (fresh w') s)) (_growth (cls w')))
                       (S (fresh w'))
                       ((trace w' ++ [EvNewScope (mkScope (fresh w') s)]) ++
                        [EvScopeEnter (mkScope (fresh w') s)])) Hbody)
    as (Hkeep & evs & Hevs & Hqe).
  simpl in Hkeep, Hevs.
  exists (mkScope (fresh w') s), pre, evs. simpl.
  split; [exact Hs|]. split.
  { intros s0 Hs0. injection (Hcached s0 Hs0) as Hw. rewrite Hw in Hs. congruence. }
  split; [reflexivity|]. split; [reflexivity|]. split.
  { rewrite Hpre, <- !app_assoc. reflexivity. }
  split; [exact Hq|]. split; [exact Hevs|]. split; [exact Hqe|]. split.
  { intro exc. rewrite exit_eq, Hkeep. reflexivity. }
  unfold with_block. rewrite Henter.
  match goal with |- context [exec fw body ?w1] =>
    destruct (exec fw body w1) as [[[]|e] w2] end; simpl in Hkeep, Hevs |- *;
    rewrite exit_eq, Hkeep; simpl.
  - split; [reflexivity|]. now rewrite Hevs, <- app_assoc.
  - destruct (truthy _); simpl; (split; [reflexivity|]); now rewrite Hevs, <- app_assoc.
Qed.

(** C8 on the host after [gpu()]: a block whose body asks for the replica
    count and then raises. *)
Lemma C8_scoped_acquisition_witness :
  let body := Seq GetReplica (RaiseStmt (UserError 1)) in
  let v := mkStrategy 0 (MirroredStrategy ["/gpu:0"; "/gpu:1"]%string) in
  let w1 := snd (__enter__ host after_gpu_all) in
  exists sc pre evs,
    _strategy (cls w1) = Some v /\
    (forall s0, _strategy (cls after_gpu_all) = Some s0 -> v = s0) /\
    scope_strategy sc = v /\
    _scope (cls w1) = Some sc /\
    trace w1 = trace after_gpu_all ++ pre ++ [EvNewScope sc; EvScopeEnter sc] /\
    quiet pre /\
    trace (snd (exec host body w1)) = trace w1 ++ evs /\
    quiet evs /\
    (forall exc, fst (__exit__ host exc (snd (exec host body w1)))
                 = Ok (scope_exit_result host sc exc)) /\
    fst (exec host (With body) after_gpu_all) =
      match fst (exec host body w1) with
      | Ok _ => Ok tt
      | Raise e => if truthy (scope_exit_result host sc (Some e)) then Ok tt else Raise e
      end /\
    trace (snd (exec host (With body) after_gpu_all)) =
      trace w1 ++ evs ++ [EvScopeExit sc (exc_info (fst (exec host body w1)))].
Proof.
  intros body v w1.
  apply (C8_scoped_acquisition host body after_gpu_all v w1);
    vm_compute; reflexivity.
Defined.

(** C8 as the specification words it fails for nested blocks: the class
    stores one scope, so the inner [__enter__] overwrites the outer scope and
    both [__exit__] calls go to the inner one.  The outer scope is entered and
    never left. *)
Lemma C8_counterexample :
  let s := mkStrategy 0 (OneDeviceStrategy "/cpu:0") in
  let outer := mkScope 1 s in
  let inner := mkScope 2 s in
  _scope (cls (snd (__enter__ host initial))) = Some outer /\
  trace (snd (exec host (With (With Skip)) initial)) =
    [EvNewStrategy s; EvNewScope outer; EvScopeEnter outer;
     EvNewScope inner; EvScopeEnter inner;
     EvScopeExit inner None; EvScopeExit inner None] /\
  (forall exc, ~ In (EvScopeExit outer exc)
                    (trace (snd (exec host (With (With Skip)) initial)))).
Proof.
  intros s outer inner. split; [reflexivity|]. split; [reflexivity|].
  intros exc H. vm_compute in H.
  repeat (destruct H as [H|H]; [discriminate H|]). exact H.
Qed.

(** ** The cached strategy *)

(** A successful [strategy] returns the strategy it leaves cached. *)
Lemma strategy_returns_cached fw w r w1 :
  strategy fw w = (Ok r, w1) ->
  exists s, r = Some s /\ _strategy (cls w1) = Some s.
Proof.
  rewrite strategy_eq. destruct (_build_strategy fw w) as [[[]|e] w'] eqn:Hb;
    [|discriminate].
  intros [= <- <-]. destruct (build_outcome fw w _ _ Hb) as [_ [s Hs]].
  exists s. now rewrite Hs.
Qed.

(** With nothing cached, a successful [strategy] constructs a new object for
    the current selection. *)
Lemma strategy_builds fw w r w2 :
  _strategy (cls w) = None ->
  strategy fw w = (Ok r, w2) ->
  exists s tr, r = Some s /\ _strategy (cls w2) = Some s /\
               strategy_id s = fresh w /\
               shape_by_count (_device_list (cls w)) (strategy_kind s) /\
               trace w2 = tr ++ [EvNewStrategy s].
Proof.
  intros Hnone. rewrite (strategy_fresh fw w Hnone).
  destruct (limit_gpu_memory_run fw w) as (os & Hc & Hf & _).
  destruct (limit_gpu_memory fw w) as [[[]|e] w1]; [|discriminate].
  simpl in Hc, Hf. rewrite Hc, Hf.
  destruct (_short_names (_device_list (cls w))) as [names|e] eqn:En; [|discriminate].
  intros [= <- <-]. eexists. exists (trace w1). simpl. repeat split.
  apply strategy_for_shape. now apply short_names_Forall2.
Qed.

(** With a strategy cached, [strategy] returns it and changes nothing. *)
Lemma strategy_cached fw w o :
  _strategy (cls w) = Some o -> strategy fw w = (Ok (Some o), w).
Proof.
  intro Ho. now rewrite strategy_eq, (build_cached fw w o Ho), Ho.
Qed.

Lemma cached_scope fw s w :
  _strategy (cls w) = Some s ->
  scope fw w = (Ok (mkScope (fresh w) s),
                mkWorld (cls w) (S (fresh w))
                        (trace w ++ [EvNewScope (mkScope (fresh w) s)])).
Proof.
  intro H. now rewrite scope_eq, (build_cached fw w s H), H.
Qed.

Lemma cached_enter fw s w :
  _strategy (cls w) = Some s ->
  __enter__ fw w =
    (Ok s,
     mkWorld (mkDM (_device (cls w)) (_device_list (cls w)) (Some s)
                   (Some (mkScope (fresh w) s)) (_growth (cls w)))
             (S (fresh w))
             ((trace w ++ [EvNewScope (mkScope (fresh w) s)]) ++
              [EvScopeEnter (mkScope (fresh w) s)])).
Proof.
  intro H. rewrite enter_eq, (cached_scope fw s w H). simpl. now rewrite H.
Qed.

(** Code that calls neither [cpu] nor [gpu] keeps a cached strategy and
    makes no call a build makes. *)
Lemma exec_keeps_cache fw s p : forall w,
  no_select p = true ->
  _strategy (cls w) = Some s ->
  _strategy (cls (snd (exec fw p w))) = Some s /\
  exists evs, trace (snd (exec fw p w)) = trace w ++ evs /\
              Forall (fun e => is_build_event e = false) evs.
Proof.
  assert (Hnil : forall w : World, exists evs,
             trace w = trace w ++ evs /\ Forall (fun e => is_build_event e = false) evs).
  { intro w. exists []. split; [now rewrite app_nil_r|constructor]. }
  induction p as [|a IHa b IHb|ds|ds| | | | |v|e|body IH|body IH]; intros w Hn Hs;
    simpl in Hn; try discriminate Hn.
  - split; [exact Hs|apply Hnil].
  - apply andb_true_iff in Hn as [Ha Hb]. simpl. unfold bind.
    destruct (IHa w Ha Hs) as (Hsa & ea & Hta & Hqa).
    destruct (exec fw a w) as [[[]|e] w1]; simpl in *; [|split; [exact Hsa|now exists ea]].
    destruct (IHb w1 Hb Hsa) as (Hsb & eb & Htb & Hqb).
    split; [exact Hsb|]. exists (ea ++ eb).
    split; [now rewrite Htb, Hta, app_assoc|]. apply Forall_app. now split.
  - simpl. unfold discard, bind, ret.
    rewrite strategy_eq, (build_cached fw w s Hs). simpl. split; [exact Hs|apply Hnil].
  - simpl. unfold discard, bind, ret.
    rewrite replica_eq, (build_cached fw w s Hs), Hs. simpl. split; [exact Hs|apply Hnil].
  - simpl. unfold discard, bind, ret. rewrite (cached_scope fw s w Hs). simpl.
    split; [exact Hs|]. eexists. split; [reflexivity|]. now repeat constructor.
  - split; [exact Hs|apply Hnil].
  - simpl. split; [exact Hs|]. exists []. split; [now rewrite app_nil_r|constructor].
  - split; [exact Hs|apply Hnil].
  - simpl. destruct (IH w Hn Hs) as (Hsb & evs & Ht & Hq).
    destruct (exec fw body w) as [[[]|e] w1]; simpl in *; split; eauto.
  - simpl. unfold with_block. rewrite (cached_enter fw s w Hs).
    match goal with |- context [exec fw body ?w0] => set (w1 := w0) end.
    destruct (IH w1 Hn eq_refl) as (Hsb & evs & Ht & Hq).
    assert (Hout : forall exc,
               _strategy (cls (snd (__exit__ fw exc (snd (exec fw body w1))))) = Some s /\
               exists evs', trace (snd (__exit__ fw exc (snd (exec fw body w1))))
                            = trace w ++ evs' /\
                            Forall (fun e => is_build_event e = false) evs').
    { intro exc. rewrite exit_eq.
      destruct (_scope (cls (snd (exec fw body w1)))) as [sc|]; simpl.
      - split; [exact Hsb|]. rewrite Ht. subst w1. simpl.
        eexists. split; [rewrite <- !app_assoc; reflexivity|].
        repeat (apply Forall_app; split); try exact Hq; now repeat constructor.
      - split; [exact Hsb|]. rewrite Ht. subst w1. simpl.
        eexists. split; [rewrite <- !app_assoc; reflexivity|].
        repeat (apply Forall_app; split); try exact Hq; now repeat constructor. }
    destruct (exec fw body w1) as [[[]|e] w2]; simpl in Hout |- *.
    + specialize (Hout None). now destruct (__exit__ fw None w2) as [[?|?] ?].
    + specialize (Hout (Some e)).
      destruct (__exit__ fw (Some e) w2) as [[r|?] ?]; [|exact Hout].
      now destruct (truthy r).
Qed.

(** C3: whatever client code runs, a cached strategy has the shape of the
    selection currently installed.  A successful request for the strategy
    leaves its result cached, and as long as neither [cpu] nor [gpu] is
    called, whatever else runs in between, the next request returns the same
    object and nothing is constructed.  A successful [cpu] or [gpu] installs
    the devices its argument selects from the queried list and empties the
    cache, and the next request then constructs a new object, different from
    the one cached before, for exactly these devices. *)
Theorem C3_cache_consistency fw :
  consistent initial /\
  (forall p w, consistent w -> consistent (snd (exec fw p w))) /\
  (forall w s w1, strategy fw w = (Ok s, w1) ->
      (strategy fw w1 = (Ok s, w1) /\ exists o, s = Some o) /\
      forall p, no_select p = true ->
        strategy fw (snd (exec fw p w1)) = (Ok s, snd (exec fw p w1)) /\
        exists evs, trace (snd (exec fw p w1)) = trace w1 ++ evs /\
                    Forall (fun e => is_build_event e = false) evs) /\
  (forall on_gpu devices w w1,
      select_call fw on_gpu devices w = (Ok tt, w1) ->
      exists sel,
        _select_from_available devices (queried fw on_gpu) = Ok sel /\
        _device_list (cls w1) = sel /\
        _strategy (cls w1) = None /\
        forall r w2, strategy fw w1 = (Ok r, w2) ->
          exists s tr,
            r = Some s /\ _strategy (cls w2) = Some s /\
            shape_by_count sel (strategy_kind s) /\
            trace w2 = tr ++ [EvNewStrategy s] /\
            (consistent w -> forall old, _strategy (cls w) = Some old ->
                                         strategy_id old <> strategy_id s)).
Proof.
  split; [exact I|]. split; [intros p w; apply exec_consistent|]. split.
  - intros w s w1 H. destruct (strategy_returns_cached fw w s w1 H) as (o & -> & Ho).
    split; [split; [exact (strategy_cached fw w1 o Ho)|now exists o]|].
    intros p Hp. destruct (exec_keeps_cache fw o p w1 Hp Ho) as [Hk Hev].
    split; [exact (strategy_cached fw _ o Hk)|exact Hev].
  - intros on_gpu devices w w1. rewrite select_call_eq.
    destruct (_select_from_available devices (queried fw on_gpu)) as [sel|e];
      [|discriminate].
    intros [= <-]. exists sel. split; [reflexivity|]. split; [reflexivity|].
    split; [reflexivity|]. intros r w2 Hs.
    apply strategy_builds in Hs; [|reflexivity].
    destruct Hs as (s & tr & -> & Hc & Hid & Hsh & Htr).
    exists s, tr. repeat split; auto.
    intros Hw old Hold. unfold consistent in Hw. rewrite Hold in Hw.
    simpl in Hid. destruct Hw as [Hlt _]. lia.
Qed.

(** C3 on the host: [gpu()] succeeds from the initial state, installs the
    two GPUs and empties the cache, and the strategy requested next is built
    for the two GPUs. *)
Lemma C3_cache_consistency_witness :
  exists sel,
    _select_from_available (One (IStr "all")) (queried host true) = Ok sel /\
    _device_list (cls after_gpu_all) = sel /\
    _strategy (cls after_gpu_all) = None /\
    forall r w2, strategy host after_gpu_all = (Ok r, w2) ->
      exists s tr,
        r = Some s /\ _strategy (cls w2) = Some s /\
        shape_by_count sel (strategy_kind s) /\
        trace w2 = tr ++ [EvNewStrategy s] /\
        (consistent initial -> forall old, _strategy (cls initial) = Some old ->
                                           strategy_id old <> strategy_id s).
Proof.
  destruct (C3_cache_consistency host) as (_ & _ & _ & H).
  apply (H true (One (IStr "all")) initial after_gpu_all).
  reflexivity.
Defined.

(** C9: when [cpu] or [gpu] raises, the exception is the index error of the
    selection; the device type already names the requested kind, while the
    selected devices, the cached strategy and everything else are as before.
    A request for the strategy afterwards returns the object that was cached,
    or, if none was, builds one for the old selection. *)
Theorem C9_failed_select fw on_gpu devices w e w' :
  select_call fw on_gpu devices w = (Raise e, w') ->
  is_IndexError e = true /\
  _device (cls w') = Some (kind_name on_gpu) /\
  _device_list (cls w') = _device_list (cls w) /\
  _strategy (cls w') = _strategy (cls w) /\
  _scope (cls w') = _scope (cls w) /\
  _growth (cls w') = _growth (cls w) /\
  fresh w' = fresh w /\
  trace w' = trace w /\
  (forall s, _strategy (cls w) = Some s -> strategy fw w' = (Ok (Some s), w')) /\
  (_strategy (cls w) = None ->
   forall r w2, strategy fw w' = (Ok r, w2) ->
     exists s, r = Some s /\ _strategy (cls w2) = Some s /\
               _device (cls w2) = Some (kind_name on_gpu) /\
               shape_by_count (_device_list (cls w)) (strategy_kind s)).
Proof.
  rewrite select_call_eq, select_from_available_spec.
  destruct (find (unavailable (queried fw on_gpu)) (identifiers devices)) as [d|];
    [|discriminate].
  intros [= <- <-]. simpl. repeat split.
  - intros s Hs. rewrite strategy_eq.
    rewrite (build_cached fw _ s) by exact Hs. simpl. now rewrite Hs.
  - intros Hnone r w2.
    match goal with |- strategy fw ?w0 = _ -> _ => set (w1 := w0) end.
    assert (Hn1 : _strategy (cls w1) = None) by exact Hnone.
    rewrite (strategy_fresh fw w1 Hn1).
    destruct (limit_gpu_memory_run fw w1) as (os & Hcl & _).
    destruct (limit_gpu_memory fw w1) as [[[]|e1] w3]; [|discriminate].
    simpl in Hcl. rewrite Hcl. subst w1. simpl.
    destruct (_short_names (_device_list (cls w))) as [names|e1] eqn:En; [|discriminate].
    intros [= <- <-]. eexists. simpl. repeat split.
    apply strategy_for_shape. now apply short_names_Forall2.
Qed.

(** C9 on the host: [gpu()] selects both GPUs and a strategy is built for
    them; then [cpu(5)] fails. *)
Lemma C9_failed_select_witness :
  let w := snd (strategy host after_gpu_all) in
  let w' := snd (select_call host false (One (IInt 5)) w) in
  let e := IndexError_device (IInt 5) in
  is_IndexError e = true /\
  _device (cls w') = Some (kind_name false) /\
  _device_list (cls w') = _device_list (cls w) /\
  _strategy (cls w') = _strategy (cls w) /\
  _scope (cls w') = _scope (cls w) /\
  _growth (cls w') = _growth (cls w) /\
  fresh w' = fresh w /\
  trace w' = trace w /\
  (forall s, _strategy (cls w) = Some s -> strategy host w' = (Ok (Some s), w')) /\
  (_strategy (cls w) = None ->
   forall r w2, strategy host w' = (Ok r, w2) ->
     exists s, r = Some s /\ _strategy (cls w2) = Some s /\
               _device (cls w2) = Some (kind_name false) /\
               shape_by_count (_device_list (cls w)) (strategy_kind s)).
Proof.
  intros w w' e.
  apply (C9_failed_select host false (One (IInt 5)) w e w').
  vm_compute; reflexivity.
Defined.

(* ================================================================== *)
(** * Further properties of the code *)

(** ** Selection *)

Lemma find_none_Forall {A} (f : A -> bool) (l : list A) :
  find f l = None <-> Forall (fun x => f x = false) l.
Proof.
  induction l as [|a l IH]; simpl.
  - split; [constructor|reflexivity].
  - destruct (f a) eqn:Fa.
    + split; [discriminate|]. intro H. inversion H; congruence.
    + rewrite IH. split; [now constructor|]. intro H. now inversion H.
Qed.

Lemma find_app_first {A} (f : A -> bool) (l1 l2 : list A) :
  find f (l1 ++ l2) =
  match find f l1 with Some y => Some y | None => find f l2 end.
Proof.
  induction l1 as [|a l1 IH]; simpl; [reflexivity|].
  destruct (f a); [reflexivity|apply IH].
Qed.

Lemma unavailable_false available d :
  unavailable available d = false <->
  is_all d = true \/ (0 <= _to_index d < Z.of_nat (length available))%Z.
Proof.
  unfold unavailable. destruct (is_all d); simpl.
  - split; auto.
  - rewrite orb_false_iff, Z.ltb_ge, Z.leb_gt. split.
    + intros [H1 H2]. right. lia.
    + intros [H|H]; [discriminate|lia].
Qed.

(** An available identifier other than ['all'] contributes one device, and it
    is one of the available ones. *)
Lemma expand_indexed available d :
  unavailable available d = false -> is_all d = false ->
  exists dev, expand available d = [dev] /\ In dev available.
Proof.
  intros Hu Hall. apply unavailable_false in Hu as [Hu|Hu]; [congruence|].
  destruct (py_index_in_range available (_to_index d) Hu) as [dev [_ Hn]].
  exists dev. unfold expand. rewrite Hall, Hn. split; [reflexivity|].
  exact (nth_error_In _ _ Hn).
Qed.

Lemma select_call_ok fw on_gpu devices w :
  fst (select_call fw on_gpu devices w) = Ok tt <->
  find (unavailable (queried fw on_gpu)) (identifiers devices) = None.
Proof.
  rewrite select_call_eq, select_from_available_spec.
  destruct (find (unavailable (queried fw on_gpu)) (identifiers devices)); simpl;
    split; (reflexivity || discriminate).
Qed.

Lemma select_call_selection fw on_gpu devices w :
  fst (select_call fw on_gpu devices w) = Ok tt ->
  _device_list (cls (snd (select_call fw on_gpu devices w))) =
  flat_map (expand (queried fw on_gpu)) (identifiers devices).
Proof.
  rewrite select_call_eq, select_from_available_spec.
  destruct (find (unavailable (queried fw on_gpu)) (identifiers devices)); simpl;
    [discriminate|reflexivity].
Qed.

(** X1: [cpu] and [gpu] succeed exactly when every identifier is ['all'] or
    resolves to an index of the queried list; the selection installed is then
    what the identifiers contribute one after the other: the whole list for
    ['all'], the device at its index for any other. *)
Theorem X1_select_succeeds_iff fw on_gpu devices w :
  (fst (select_call fw on_gpu devices w) = Ok tt <->
   Forall (fun d => is_all d = true \/
                    (0 <= _to_index d < Z.of_nat (length (queried fw on_gpu)))%Z)
          (identifiers devices)) /\
  (fst (select_call fw on_gpu devices w) = Ok tt ->
   _device_list (cls (snd (select_call fw on_gpu devices w))) =
   flat_map (fun d => if is_all d then queried fw on_gpu
                      else match nth_error (queried fw on_gpu)
                                           (Z.to_nat (_to_index d)) with
                           | Some dev => [dev]
                           | None => []
                           end)
            (identifiers devices)).
Proof.
  split; [|apply select_call_selection].
  rewrite select_call_ok, find_none_Forall. split; intro H;
    (eapply Forall_impl; [|exact H]); intros d Hd; now apply unavailable_false.
Qed.

(** X2: selecting a concatenation of identifier lists selects the
    concatenation of what each list selects, and raises what the first list
    raises, else what the second raises; one identifier alone behaves as the
    list holding it. *)
Theorem X2_select_append available l1 l2 :
  _select_from_available (Many (l1 ++ l2)) available =
    res_bind (_select_from_available (Many l1) available) (fun r1 =>
    res_bind (_select_from_available (Many l2) available) (fun r2 =>
    Ok (r1 ++ r2))) /\
  (forall d, _select_from_available (One d) available =
             _select_from_available (Many [d]) available).
Proof.
  split; [|reflexivity].
  rewrite !select_from_available_spec. simpl. rewrite find_app_first.
  destruct (find (unavailable available) l1); [reflexivity|]. simpl.
  destruct (find (unavailable available) l2); [reflexivity|]. simpl.
  now rewrite flat_map_app.
Qed.

(** X3: a selection holds only devices the framework reported for the kind
    queried, and its length is the number of identifiers other than ['all']
    plus, for each ['all'], the number of devices reported. *)
Theorem X3_selection_within_available fw on_gpu devices w :
  fst (select_call fw on_gpu devices w) = Ok tt ->
  (forall dev, In dev (_device_list (cls (snd (select_call fw on_gpu devices w)))) ->
               In dev (queried fw on_gpu)) /\
  length (_device_list (cls (snd (select_call fw on_gpu devices w)))) =
    (count_indexed (identifiers devices) +
     count_all (identifiers devices) * length (queried fw on_gpu))%nat.
Proof.
  intro Hok. rewrite (select_call_selection _ _ _ _ Hok).
  apply select_call_ok, find_none_Forall in Hok.
  induction Hok as [|d ids Hd _ [IHin IHlen]]; [split; [intros dev []|reflexivity]|].
  unfold count_indexed, count_all in *. simpl.
  destruct (is_all d) eqn:Hall; simpl.
  - unfold expand at 1 3. rewrite Hall. split.
    + intros dev Hin. apply in_app_or in Hin as [Hin|Hin]; auto.
    + rewrite length_app, IHlen. lia.
  - destruct (expand_indexed _ _ Hd Hall) as (dev0 & -> & Hin0). split.
    + intros dev [<-|Hin]; auto.
    + simpl. now rewrite IHlen.
Qed.

Lemma X3_selection_within_available_witness :
  (forall dev,
      In dev (_device_list
                (cls (snd (select_call host true (Many [IStr "all"; IInt 1]) initial))))
      -> In dev (queried host true)) /\
  length (_device_list
            (cls (snd (select_call host true (Many [IStr "all"; IInt 1]) initial)))) =
    (count_indexed [IStr "all"; IInt 1] +
     count_all [IStr "all"; IInt 1] * length (queried host true))%nat.
Proof.
  apply (X3_selection_within_available host true (Many [IStr "all"; IInt 1]) initial).
  reflexivity.
Defined.

(** ** String identifiers *)

Lemma lower_idem (s : string) : PyStr.lower (PyStr.lower s) = PyStr.lower s.
Proof.
  induction s as [|c s IH]; simpl; [reflexivity|].
  assert (H : case_check c = true)
    by (apply ascii_check; vm_compute; reflexivity).
  unfold case_check in H. apply Ascii.eqb_eq in H. now rewrite H, IH.
Qed.

Lemma digits_ascii (s : string) : all_digits s = true -> PyStr.is_ascii s = true.
Proof.
  induction s as [|c s IH]; [reflexivity|].
  cbn [all_digits PyStr.is_ascii]. cbv zeta. intro H.
  apply andb_true_iff in H as [H Hr]. apply andb_true_iff in H as [_ Hc].
  rewrite (IH Hr), andb_true_r.
  apply Nat.leb_le in Hc. apply Nat.ltb_lt. lia.
Qed.

(** X4: a string identifier resolves to -1, 0, 1, 2 or 3 and to nothing
    else, so an alias never reaches a fifth device.  A string of digits is
    not an index: it resolves to -1, as does ['ALL'] in any spelling.  And a
    string that resolves to -1 and is not exactly ['all'] makes [cpu] and
    [gpu] raise the index error on every host, whatever else is asked for. *)
Theorem X4_string_identifiers (s : string) :
  (-1 <= _to_index (IStr s) <= 3)%Z /\
  (all_digits s = true -> _to_index (IStr s) = (-1)%Z) /\
  (eq_nocase s "all" = true -> _to_index (IStr s) = (-1)%Z) /\
  (_to_index (IStr s) = (-1)%Z -> s <> "all" ->
   forall fw on_gpu devices w,
     In (IStr s) (identifiers devices) ->
     exists d, fst (select_call fw on_gpu devices w) = Raise (IndexError_device d)).
Proof.
  split; [apply to_index_range|]. split; [|split].
  - intro Hd. rewrite (to_index_table s (digits_ascii s Hd)).
    destruct s as [|c r]; [reflexivity|].
    cbn [all_digits] in Hd. cbv zeta in Hd. apply andb_true_iff in Hd as [Hc _].
    assert (H : digit_check c = true)
      by (apply ascii_check; vm_compute; reflexivity).
    unfold digit_check in H. cbv zeta in H. rewrite Hc in H. simpl in H.
    apply andb_true_iff in H as [H Ht]. apply andb_true_iff in H as [Hf Hs].
    apply negb_true_iff in Hf, Hs, Ht.
    simpl eq_nocase.
    change (PyStr.lower_char "F") with "f"%char.
    change (PyStr.lower_char "S") with "s"%char.
    change (PyStr.lower_char "T") with "t"%char.
    rewrite Hf, Hs, Ht. reflexivity.
  - intro H. rewrite (to_index_nocase s "all" H). reflexivity.
  - intros Hidx Hne fw on_gpu devices w Hin.
    assert (Hu : unavailable (queried fw on_gpu) (IStr s) = true).
    { unfold unavailable. rewrite Hidx. simpl.
      destruct (String.eqb_spec s "all"); [contradiction|reflexivity]. }
    destruct (find_exists _ _ _ Hin Hu) as [d Hd].
    exists d. now rewrite select_call_eq, select_from_available_spec, Hd.
Qed.

(** X5: the alias lookup does not see the case of letters: two strings equal
    up to case resolve alike, and so do a string, its upper-case and its
    lower-case form. *)
Theorem X5_alias_case_invariant :
  (forall s t, eq_nocase s t = true -> _to_index (IStr s) = _to_index (IStr t)) /\
  (forall s, _to_index (IStr (PyStr.upper s)) = _to_index (IStr s) /\
             _to_index (IStr (PyStr.lower s)) = _to_index (IStr s)).
Proof.
  split; [exact to_index_nocase|].
  intro s. split.
  - rewrite !to_index_upper, upper_idem. reflexivity.
  - apply to_index_nocase. rewrite eq_nocase_lower, lower_idem.
    apply String.eqb_refl.
Qed.

(** X6: whether [cpu] or [gpu] succeeds does not depend on the state it is
    called in, and a successful call leaves nothing of an earlier select
    behind: after any earlier [cpu] or [gpu], successful or not, it ends in
    the very state it ends in without that call.  So selecting twice is
    selecting once. *)
Theorem X6_last_select_wins fw g1 ds1 g2 ds2 w :
  fst (select_call fw g2 ds2 w) = Ok tt ->
  select_call fw g2 ds2 (snd (select_call fw g1 ds1 w)) = select_call fw g2 ds2 w /\
  (forall w', fst (select_call fw g2 ds2 w') = Ok tt).
Proof.
  intro H. split.
  - rewrite (select_call_eq fw g2 ds2 w) in H |- *.
    rewrite (select_call_eq fw g2 ds2 (snd _)).
    destruct (_select_from_available ds2 (queried fw g2)); [|discriminate H].
    rewrite (select_call_eq fw g1 ds1 w).
    now destruct (_select_from_available ds1 (queried fw g1)).
  - intro w'. apply select_call_ok. now apply select_call_ok in H.
Qed.

Lemma X6_last_select_wins_witness :
  select_call host false (One (IStr "first"))
              (snd (select_call host true (One (IInt 7)) initial))
    = select_call host false (One (IStr "first")) initial /\
  (forall w', fst (select_call host false (One (IStr "first")) w') = Ok tt).
Proof.
  apply (X6_last_select_wins host true (One (IInt 7)) false (One (IStr "first")) initial).
  reflexivity.
Defined.

(** ** Short names *)

Lemma split_segments_lack sep s :
  Forall (fun seg => PyStr.lacks sep seg = true) (PyStr.split sep s).
Proof.
  induction s as [|c r IH]; simpl; [now repeat constructor|].
  destruct (Ascii.eqb c sep) eqn:E; [now constructor|].
  pose proof (split_not_nil sep r) as Hne.
  destruct (PyStr.split sep r) as [|seg segs]; [contradiction|].
  inversion IH as [|? ? Hseg Hsegs]; subst. constructor; [|exact Hsegs].
  simpl. now rewrite E, Hseg.
Qed.

Lemma lower_lacks_colon s :
  PyStr.lacks colon (PyStr.lower s) = PyStr.lacks colon s.
Proof.
  induction s as [|c r IH]; simpl; [reflexivity|].
  assert (H : lower_colon_check c = true)
    by (apply ascii_check; vm_compute; reflexivity).
  unfold lower_colon_check in H. apply Bool.eqb_prop in H. now rewrite H, IH.
Qed.

Lemma short_name_inv d n :
  short_name d = Ok n ->
  exists pre a b,
    PyStr.split colon (name d) = pre ++ [a; b] /\
    n = ("/" ++ PyStr.lower a ++ ":" ++ b)%string.
Proof.
  intro H.
  destruct (Nat.lt_ge_cases (length (PyStr.split colon (name d))) 2) as [Hlt|Hge].
  - unfold short_name in H. cbv zeta in H. rewrite (py_index_short _ Hlt) in H.
    discriminate H.
  - destruct (last_two _ Hge) as (pre & a & b & E). exists pre, a, b.
    split; [exact E|]. rewrite (short_name_parts d pre a b E) in H. now injection H.
Qed.

(** X7: a short name has exactly two segments when split on [':'] again:
    ["/"] followed by the lower-cased device type, and the last segment of
    the full name unchanged.  So the device number can be read back from the
    short name as it is read from the full name, with [split(':')[-1]]. *)
Theorem X7_short_name_roundtrip d n :
  short_name d = Ok n ->
  exists pre a b,
    PyStr.split colon (name d) = pre ++ [a; b] /\
    PyStr.split colon n = [("/" ++ PyStr.lower a)%string; b] /\
    py_index (PyStr.split colon n) (-1) = Ok b /\
    py_index (PyStr.split colon (name d)) (-1) = Ok b.
Proof.
  intro H. destruct (short_name_inv d n H) as (pre & a & b & E & ->).
  exists pre, a, b. split; [exact E|].
  pose proof (split_segments_lack colon (name d)) as Hl. rewrite E in Hl.
  apply Forall_app in Hl as [_ Hl].
  inversion Hl as [|? ? Ha Hl']; subst. inversion Hl' as [|? ? Hb _]; subst.
  assert (Hs : PyStr.split colon ("/" ++ PyStr.lower a ++ ":" ++ b)%string
               = [("/" ++ PyStr.lower a)%string; b]).
  { change ("/" ++ PyStr.lower a ++ ":" ++ b)%string
      with (String "/" (PyStr.lower a ++ String colon b))%string.
    change (String "/" (PyStr.lower a ++ String colon b))%string
      with (String "/" (PyStr.lower a) ++ String colon b)%string.
    rewrite (split_app_sep colon _ b Hb), split_lacks; [reflexivity|].
    simpl. now rewrite lower_lacks_colon. }
  split; [exact Hs|]. split.
  - rewrite Hs. exact (proj2 (py_index_last_two [] _ b)).
  - rewrite E. exact (proj2 (py_index_last_two pre a b)).
Qed.

Lemma X7_short_name_roundtrip_witness :
  exists pre a b,
    PyStr.split colon (name gpu1) = pre ++ [a; b] /\
    PyStr.split colon "/gpu:1" = [("/" ++ PyStr.lower a)%string; b] /\
    py_index (PyStr.split colon "/gpu:1") (-1) = Ok b /\
    py_index (PyStr.split colon (name gpu1)) (-1) = Ok b.
Proof.
  apply (X7_short_name_roundtrip gpu1 "/gpu:1"). reflexivity.
Defined.

(** ** Builds *)

Lemma strategy_total fw w :
  _strategy (cls w) = None ->
  Forall well_named (_device_list (cls w)) ->
  device_is (_device (cls w)) "gpu" = false \/ only_RuntimeError fw ->
  exists s w2,
    strategy fw w = (Ok (Some s), w2) /\
    strategy_id s = fresh w /\
    strategy_kind s = strategy_for
                        (match _short_names (_device_list (cls w)) with
                         | Ok ns => ns
                         | Raise _ => []
                         end) /\
    shape_by_count (_device_list (cls w)) (strategy_kind s) /\
    _strategy (cls w2) = Some s /\
    _scope (cls w2) = _scope (cls w) /\
    fresh w2 = S (fresh w) /\
    exists os, trace w2 =
               trace w ++ growth_events (_growth (cls w))
                                        (list_physical_devices fw "GPU") os
                       ++ [EvNewStrategy s] /\
               (device_is (_device (cls w)) "gpu" = false -> os = []).
Proof.
  intros Hnone Hnames Honly. rewrite (strategy_fresh fw w Hnone).
  pose proof (limit_gpu_memory_returns fw w Honly) as Hok.
  destruct (limit_gpu_memory_run fw w) as (os & Hc & Hf & Ht & Hoff & _).
  destruct (limit_gpu_memory fw w) as [r w1]. simpl in Hok, Hc, Hf, Ht, Hoff. subst r.
  rewrite Hc, Hf. destruct (short_names_total _ Hnames) as [ns Hns]. rewrite Hns.
  eexists. eexists. split; [reflexivity|]. simpl.
  split; [reflexivity|]. split; [reflexivity|].
  split; [apply strategy_for_shape; now apply short_names_Forall2|].
  split; [reflexivity|]. split; [reflexivity|]. split; [reflexivity|].
  exists os. split; [now rewrite Ht, <- app_assoc|].
  intro Hd. now destruct (Hoff Hd).
Qed.

(** X8: a select that selects nothing is no error.  With an empty identifier
    list, or with only ['all'] on a host that reports no device of the kind,
    [cpu] and [gpu] succeed with an empty selection and an empty cache.
    Whenever the request for the strategy that follows returns, it returns a
    new single-device strategy on ["/cpu:0"], also after [gpu].  It does
    return after [cpu], and after [gpu] when [set_memory_growth] raises
    nothing but [RuntimeError]. *)
Theorem X8_empty_selection_falls_back fw on_gpu devices w :
  identifiers devices = [] \/
  (queried fw on_gpu = [] /\ Forall (fun d => is_all d = true) (identifiers devices)) ->
  exists w1,
    select_call fw on_gpu devices w = (Ok tt, w1) /\
    _device (cls w1) = Some (kind_name on_gpu) /\
    _device_list (cls w1) = [] /\
    _strategy (cls w1) = None /\
    (forall r w2, strategy fw w1 = (Ok r, w2) ->
       exists s, r = Some s /\ _strategy (cls w2) = Some s /\
                 strategy_id s = fresh w /\
                 strategy_kind s = OneDeviceStrategy "/cpu:0") /\
    (on_gpu = false \/ only_RuntimeError fw ->
       exists s w2, strategy fw w1 = (Ok (Some s), w2)).
Proof.
  intros Hempty.
  assert (Hsel : _select_from_available devices (queried fw on_gpu) = Ok []).
  { rewrite select_from_available_spec. destruct Hempty as [-> | [Hq Hall]].
    - reflexivity.
    - rewrite Hq. induction Hall as [|d ids Hd _ IH]; [reflexivity|].
      simpl. unfold unavailable at 1, expand at 1. rewrite Hd. simpl.
      destruct (find (unavailable []) ids); [discriminate IH|exact IH]. }
  pose proof (select_call_eq fw on_gpu devices w) as Hcall. rewrite Hsel in Hcall.
  match type of Hcall with _ = (_, ?w0) => set (w1 := w0) in * end.
  exists w1. split; [exact Hcall|]. split; [reflexivity|]. split; [reflexivity|].
  split; [reflexivity|]. split.
  - intros r w2 Hs. apply strategy_builds in Hs; [|reflexivity].
    destruct Hs as (s & tr & -> & Hc & Hid & Hsh & _).
    exists s. split; [reflexivity|]. split; [exact Hc|]. split; [exact Hid|exact Hsh].
  - intro Hret.
    assert (Hd : device_is (_device (cls w1)) "gpu" = false \/ only_RuntimeError fw).
    { destruct Hret as [->|Honly]; [left; reflexivity|right; exact Honly]. }
    destruct (strategy_total fw w1 eq_refl (Forall_nil _) Hd) as (s & w2 & Hs & _).
    now exists s, w2.
Qed.

(** X8 on a host without GPUs: [gpu()] selects nothing, and the strategy
    requested next is built on ["/cpu:0"]. *)
Lemma X8_empty_selection_falls_back_witness :
  exists w1,
    select_call host_bare true (One (IStr "all")) initial = (Ok tt, w1) /\
    _device (cls w1) = Some (kind_name true) /\
    _device_list (cls w1) = [] /\
    _strategy (cls w1) = None /\
    (forall r w2, strategy host_bare w1 = (Ok r, w2) ->
       exists s, r = Some s /\ _strategy (cls w2) = Some s /\
                 strategy_id s = fresh initial /\
                 strategy_kind s = OneDeviceStrategy "/cpu:0") /\
    (true = false \/ only_RuntimeError host_bare ->
       exists s w2, strategy host_bare w1 = (Ok (Some s), w2)).
Proof.
  apply (X8_empty_selection_falls_back host_bare true (One (IStr "all")) initial).
  right. split; [reflexivity|]. repeat constructor.
Defined.

Lemma growth_events_all_ok enable gpus :
  growth_events enable gpus (repeat None (length gpus)) =
  map (fun g => EvSetMemoryGrowth g enable None) gpus.
Proof.
  induction gpus as [|g gs IH]; [reflexivity|].
  simpl repeat. now rewrite growth_events_cons, IH.
Qed.

(** X9: the flag assigned to [growth] is the one the framework receives: on a
    framework that accepts it, the build that follows [growth = v] and a
    successful [gpu] calls [set_memory_growth(g, v)] once for every GPU the
    framework reports, selected or not, in the framework's order, before the
    strategy is constructed. *)
Theorem X9_growth_reaches_every_gpu fw v devices w :
  (forall tr g b, set_memory_growth fw tr g b = None) ->
  fst (gpu fw devices (snd (growth_setter v w))) = Ok tt ->
  trace (snd (strategy fw (snd (gpu fw devices (snd (growth_setter v w)))))) =
    trace w ++
    map (fun g => EvSetMemoryGrowth g v None) (list_physical_devices fw "GPU") ++
    match fst (strategy fw (snd (gpu fw devices (snd (growth_setter v w))))) with
    | Ok (Some s) => [EvNewStrategy s]
    | _ => []
    end.
Proof.
  intros Hnever Hok.
  pose proof (select_call_eq fw true devices (snd (growth_setter v w))) as Hcall.
  change (select_call fw true) with (gpu fw) in Hcall.
  rewrite Hcall in Hok |- *.
  destruct (_select_from_available devices (queried fw true)) as [sel|e];
    [|discriminate Hok].
  simpl snd.
  match goal with |- context [strategy fw ?w0] => set (w2 := w0) end.
  rewrite (strategy_fresh fw w2 eq_refl).
  destruct (limit_gpu_memory_run fw w2) as (os & _ & _ & Ht & _ & Hon).
  destruct (Hon eq_refl) as [[_ Hos]|(k & e & _ & _ & (tr & g & b & Hby) & _)];
    [|now rewrite Hnever in Hby].
  rewrite Hos, growth_events_all_ok in Ht.
  destruct (limit_gpu_memory fw w2) as [[[]|e] w3]; simpl in Ht.
  - destruct (_short_names (_device_list (cls w3))); simpl.
    + now rewrite Ht, <- app_assoc.
    + now rewrite Ht, app_nil_r.
  - simpl. now rewrite Ht, app_nil_r.
Qed.

Lemma X9_growth_reaches_every_gpu_witness :
  trace (snd (strategy host (snd (gpu host (One (IInt 0))
                                      (snd (growth_setter true initial)))))) =
    trace initial ++
    map (fun g => EvSetMemoryGrowth g true None) (list_physical_devices host "GPU") ++
    match fst (strategy host (snd (gpu host (One (IInt 0))
                                        (snd (growth_setter true initial))))) with
    | Ok (Some s) => [EvNewStrategy s]
    | _ => []
    end.
Proof.
  apply (X9_growth_reaches_every_gpu host true (One (IInt 0)) initial); reflexivity.
Defined.

(** X10: the growth setter leaves a cached strategy in place: the next request
    returns the same object and makes no framework call, so the new flag
    reaches the framework only with the build that follows the next
    selection. *)
Theorem X10_growth_setter_keeps_cache fw w s value :
  _strategy (cls w) = Some s ->
  exists w1,
    growth_setter value w = (Ok tt, w1) /\
    _growth (cls w1) = value /\
    strategy fw w1 = (Ok (Some s), w1) /\
    trace w1 = trace w.
Proof.
  intro Hs. eexists. split; [reflexivity|]. simpl. split; [reflexivity|].
  split; [|reflexivity].
  rewrite strategy_eq, (build_cached fw _ s) by exact Hs. simpl. now rewrite Hs.
Qed.

Lemma X10_growth_setter_keeps_cache_witness :
  exists w1,
    growth_setter true (snd (strategy host after_gpu_all)) = (Ok tt, w1) /\
    _growth (cls w1) = true /\
    strategy host w1
      = (Ok (Some (mkStrategy 0 (MirroredStrategy ["/gpu:0"; "/gpu:1"]%string))), w1) /\
    trace w1 = trace (snd (strategy host after_gpu_all)).
Proof.
  apply (X10_growth_setter_keeps_cache host (snd (strategy host after_gpu_all))).
  vm_compute; reflexivity.
Defined.

(** ** Getters *)

(** X11: [replica] and [num] report [num_replicas_in_sync] of the very
    strategy the property [strategy] returns, building it if need be and
    changing the state as [strategy] does; asked again, they return the same
    number and change nothing. *)
Theorem X11_replica_follows_strategy fw w n w1 :
  replica fw w = (Ok n, w1) ->
  exists s,
    strategy fw w = (Ok (Some s), w1) /\
    n = num_replicas_in_sync fw (strategy_kind s) /\
    num fw w = (Ok n, w1) /\
    replica fw w1 = (Ok n, w1) /\
    num fw w1 = (Ok n, w1) /\
    strategy fw w1 = (Ok (Some s), w1).
Proof.
  unfold num. rewrite replica_eq, strategy_eq.
  destruct (_build_strategy fw w) as [[[]|e] w'] eqn:Hb; [|discriminate].
  destruct (_strategy (cls w')) as [s|] eqn:Hs; [|discriminate].
  intros [= <- <-]. exists s.
  rewrite replica_eq, strategy_eq, (build_cached fw w' s Hs), Hs. auto 10.
Qed.

Lemma X11_replica_follows_strategy_witness :
  exists s,
    strategy host after_gpu_all = (Ok (Some s), snd (replica host after_gpu_all)) /\
    2%Z = num_replicas_in_sync host (strategy_kind s) /\
    num host after_gpu_all = (Ok 2%Z, snd (replica host after_gpu_all)) /\
    replica host (snd (replica host after_gpu_all))
      = (Ok 2%Z, snd (replica host after_gpu_all)) /\
    num host (snd (replica host after_gpu_all))
      = (Ok 2%Z, snd (replica host after_gpu_all)) /\
    strategy host (snd (replica host after_gpu_all))
      = (Ok (Some s), snd (replica host after_gpu_all)).
Proof.
  apply (X11_replica_follows_strategy host after_gpu_all 2%Z
           (snd (replica host after_gpu_all))).
  vm_compute; reflexivity.
Defined.

(** X12: [scope()] hands out a new context manager on every call, over the
    one cached strategy; it enters nothing and leaves the scope stored by
    [__enter__] as it was. *)
Theorem X12_scope_new_each_call fw w sc1 w1 :
  scope fw w = (Ok sc1, w1) ->
  _strategy (cls w1) = Some (scope_strategy sc1) /\
  _scope (cls w1) = _scope (cls w) /\
  exists sc2 w2,
    scope fw w1 = (Ok sc2, w2) /\
    scope_id sc2 = S (scope_id sc1) /\
    scope_strategy sc2 = scope_strategy sc1 /\
    trace w2 = trace w1 ++ [EvNewScope sc2] /\
    _scope (cls w2) = _scope (cls w).
Proof.
  intro H. pose proof (proj1 (scope_frame fw w)) as [Hkeep _].
  rewrite H in Hkeep. simpl in Hkeep. rewrite scope_eq in H.
  destruct (_build_strategy fw w) as [[[]|e] w'] eqn:Hb; [|discriminate].
  destruct (_strategy (cls w')) as [s|] eqn:Hs; [|discriminate].
  injection H as <- <-. simpl in *.
  split; [exact Hs|]. split; [exact Hkeep|].
  rewrite scope_eq.
  match goal with |- context [_build_strategy fw ?w0] =>
    rewrite (build_cached fw w0 s Hs) end.
  simpl. rewrite Hs. eexists. eexists. split; [reflexivity|]. simpl. auto.
Qed.

Lemma X12_scope_new_each_call_witness :
  let sc1 := mkScope 1 (mkStrategy 0 (OneDeviceStrategy "/cpu:0")) in
  let w1 := snd (scope host initial) in
  _strategy (cls w1) = Some (scope_strategy sc1) /\
  _scope (cls w1) = _scope (cls initial) /\
  exists sc2 w2,
    scope host w1 = (Ok sc2, w2) /\
    scope_id sc2 = S (scope_id sc1) /\
    scope_strategy sc2 = scope_strategy sc1 /\
    trace w2 = trace w1 ++ [EvNewScope sc2] /\
    _scope (cls w2) = _scope (cls initial).
Proof.
  intros sc1 w1. apply (X12_scope_new_each_call host initial sc1 w1).
  vm_compute; reflexivity.
Defined.

(** ** Names without a colon *)

Lemma short_names_malformed ds :
  Exists (fun d => ~ well_named d) ds ->
  _short_names ds = Raise IndexError_list.
Proof.
  induction 1 as [d ds Hd|d ds _ IH]; rewrite short_names_cons.
  - unfold short_name. cbv zeta. unfold well_named in Hd.
    rewrite py_index_short by lia. reflexivity.
  - destruct (short_name d) as [n|e] eqn:E; simpl.
    + now rewrite IH.
    + unfold short_name in E. cbv zeta in E.
      destruct (Nat.lt_ge_cases (length (PyStr.split colon (name d))) 2) as [Hlt|Hge].
      * rewrite (py_index_short _ Hlt) in E. simpl in E. congruence.
      * destruct (last_two _ Hge) as (pre & a & b & Ep). rewrite Ep in E.
        destruct (py_index_last_two pre a b) as [E2 E1].
        rewrite E2, E1 in E. discriminate E.
Qed.

(** X13: while nothing is cached and a selected device has a name with
    fewer than two [':']-segments, no strategy can be built: [strategy],
    [replica], [scope()] and [__enter__] all raise the same exception,
    nothing is cached, no scope is created or stored, nothing but
    [set_memory_growth] is called, and a [with] block raises the exception
    without running its body.  The exception is the [IndexError] of the
    subscript, unless the device type is ['gpu'] and [set_memory_growth]
    raised something other than a [RuntimeError] before the names were
    formatted, which is then the exception raised.  So it is the
    [IndexError] whenever the device type is not ['gpu'] or
    [set_memory_growth] raises nothing but [RuntimeError]. *)
Theorem X13_malformed_name_blocks_build fw w body :
  _strategy (cls w) = None ->
  Exists (fun d => ~ well_named d) (_device_list (cls w)) ->
  exists e,
    fst (strategy fw w) = Raise e /\
    fst (replica fw w) = Raise e /\
    fst (scope fw w) = Raise e /\
    fst (__enter__ fw w) = Raise e /\
    exec fw (With body) w = (Raise e, snd (strategy fw w)) /\
    _strategy (cls (snd (strategy fw w))) = None /\
    _scope (cls (snd (strategy fw w))) = _scope (cls w) /\
    (exists os, trace (snd (strategy fw w)) =
                trace w ++ growth_events (_growth (cls w))
                                         (list_physical_devices fw "GPU") os) /\
    (e = IndexError_list \/
     (device_is (_device (cls w)) "gpu" = true /\
      raised_by fw e /\ is_RuntimeError e = false)) /\
    (device_is (_device (cls w)) "gpu" = false \/ only_RuntimeError fw ->
     e = IndexError_list).
Proof.
  intros Hnone Hbad.
  assert (Hb : exists e os w1,
             _build_strategy fw w = (Raise e, w1) /\
             cls w1 = cls w /\
             trace w1 = trace w ++ growth_events (_growth (cls w))
                                      (list_physical_devices fw "GPU") os /\
             (e = IndexError_list \/
              (device_is (_device (cls w)) "gpu" = true /\
               raised_by fw e /\ is_RuntimeError e = false)) /\
             (device_is (_device (cls w)) "gpu" = false \/ only_RuntimeError fw ->
              e = IndexError_list)).
  { rewrite (build_fresh fw w Hnone).
    pose proof (limit_gpu_memory_returns fw w) as Hret.
    destruct (limit_gpu_memory_run fw w) as (os & Hc & _ & Ht & Hoff & Hon).
    destruct (limit_gpu_memory fw w) as [[[]|e] w1]; simpl in Hret, Hc, Ht, Hoff, Hon.
    - rewrite Hc, (short_names_malformed _ Hbad).
      exists IndexError_list, os, w1. auto 10.
    - exists e, os, w1. split; [reflexivity|]. split; [exact Hc|]. split; [exact Ht|].
      split.
      + right. destruct (device_is (_device (cls w)) "gpu") eqn:Hd.
        * destruct (Hon eq_refl) as [[Hok _]|(k & e' & _ & _ & Hby & Hr)];
            [discriminate Hok|].
          destruct (is_RuntimeError e') eqn:He; [discriminate Hr|].
          injection Hr as <-. auto.
        * destruct (Hoff eq_refl) as [Hok _]. discriminate Hok.
      + intro H. discriminate (Hret H). }
  destruct Hb as (e & os & w1 & Hb & Hc & Ht & Hwhich & Hindex).
  assert (Hscope : scope fw w = (Raise e, w1))
    by now rewrite scope_eq, Hb.
  assert (Henter : __enter__ fw w = (Raise e, w1))
    by now rewrite enter_eq, Hscope.
  exists e.
  rewrite strategy_eq, replica_eq, Hscope, Henter, Hb. simpl.
  unfold with_block. rewrite Henter, Hc.
  split; [reflexivity|]. split; [reflexivity|]. split; [reflexivity|].
  split; [reflexivity|]. split; [reflexivity|]. split; [exact Hnone|].
  split; [reflexivity|]. split; [now exists os|]. split; [exact Hwhich|exact Hindex].
Qed.

(** X13 on a host whose CPU is named ["cpu"]: after [cpu()] every getter
    raises the [IndexError]. *)
Lemma X13_malformed_name_blocks_build_witness :
  let w := snd (select_call host_odd false (One (IStr "all")) initial) in
  exists e,
    fst (strategy host_odd w) = Raise e /\
    fst (replica host_odd w) = Raise e /\
    fst (scope host_odd w) = Raise e /\
    fst (__enter__ host_odd w) = Raise e /\
    exec host_odd (With GetReplica) w = (Raise e, snd (strategy host_odd w)) /\
    _strategy (cls (snd (strategy host_odd w))) = None /\
    _scope (cls (snd (strategy host_odd w))) = _scope (cls w) /\
    (exists os, trace (snd (strategy host_odd w)) =
                trace w ++ growth_events (_growth (cls w))
                                         (list_physical_devices host_odd "GPU") os) /\
    (e = IndexError_list \/
     (device_is (_device (cls w)) "gpu" = true /\
      raised_by host_odd e /\ is_RuntimeError e = false)) /\
    (device_is (_device (cls w)) "gpu" = false \/ only_RuntimeError host_odd ->
     e = IndexError_list).
Proof.
  intro w. apply (X13_malformed_name_blocks_build host_odd w GetReplica).
  - reflexivity.
  - left. unfold well_named. simpl. lia.
Defined.

(** ** The stored scope *)

(** What a successful [__enter__] has done. *)
Lemma enter_ok fw w v w1 :
  __enter__ fw w = (Ok v, w1) ->
  exists w' pre,
    _build_strategy fw w = (Ok tt, w') /\
    _strategy (cls w') = Some v /\
    trace w' = trace w ++ pre /\ quiet pre /\
    w1 = mkWorld (mkDM (_device (cls w')) (_device_list (cls w')) (Some v)
                       (Some (mkScope (fresh w') v)) (_growth (cls w')))
                 (S (fresh w'))
                 ((trace w' ++ [EvNewScope (mkScope (fresh w') v)]) ++
                  [EvScopeEnter (mkScope (fresh w') v)]).
Proof.
  rewrite enter_eq, scope_eq.
  destruct (build_frame fw w) as ((_ & pre & Hpre & Hq) & _ & _).
  destruct (_build_strategy fw w) as [[[]|e] w'] eqn:Hb; [|discriminate].
  destruct (_strategy (cls w')) as [s|] eqn:Hs; [|discriminate].
  intros [= <- <-]. simpl in Hpre. exists w', pre. simpl. rewrite Hs. auto.
Qed.

(** A [with] block whose body enters no further block: the scope entered is
    stored throughout and left at the end. *)
Lemma with_block_run fw body w v w1 :
  no_with body = true ->
  __enter__ fw w = (Ok v, w1) ->
  exists sc pre evs,
    scope_strategy sc = v /\
    _scope (cls w1) = Some sc /\
    trace w1 = trace w ++ pre ++ [EvNewScope sc; EvScopeEnter sc] /\
    quiet pre /\
    trace (snd (exec fw body w1)) = trace w1 ++ evs /\
    quiet evs /\
    exec fw (With body) w =
      (match fst (exec fw body w1) with
       | Ok _ => Ok tt
       | Raise e => if truthy (scope_exit_result fw sc (Some e)) then Ok tt else Raise e
       end,
       mkWorld (cls (snd (exec fw body w1))) (fresh (snd (exec fw body w1)))
               (trace (snd (exec fw body w1)) ++
                [EvScopeExit sc (exc_info (fst (exec fw body w1)))])) /\
    _scope (cls (snd (exec fw body w1))) = Some sc.
Proof.
  intros Hbody Henter.
  destruct (enter_ok fw w v w1 Henter) as (w' & pre & _ & _ & Hpre & Hq & Hw1).
  destruct (exec_extends fw body w1 Hbody) as (Hkeep & evs & Hevs & Hqe).
  exists (mkScope (fresh w') v), pre, evs.
  assert (Hsc : _scope (cls w1) = Some (mkScope (fresh w') v)) by now subst w1.
  split; [reflexivity|]. split; [exact Hsc|]. split.
  { subst w1. simpl. now rewrite Hpre, <- !app_assoc. }
  split; [exact Hq|]. split; [exact Hevs|]. split; [exact Hqe|].
  rewrite Hsc in Hkeep. split; [|exact Hkeep].
  simpl exec. unfold with_block. rewrite Henter.
  destruct (exec fw body w1) as [[[]|e] w2]; simpl in Hkeep |- *;
    rewrite exit_eq, Hkeep; [reflexivity|].
  now destruct (truthy _).
Qed.

Lemma exec_keeps_scope fw p : forall w,
  _scope (cls w) <> None -> _scope (cls (snd (exec fw p w))) <> None.
Proof.
  induction p as [|a IHa b IHb|ds|ds| | | | |v|e|body IH|body IH]; intros w Hw;
    try (match goal with |- context [exec fw ?q w] =>
           rewrite (proj1 (exec_extends fw q w eq_refl)); exact Hw end).
  - simpl. unfold bind. specialize (IHa w Hw).
    destruct (exec fw a w) as [[[]|e] w1]; simpl in *; auto.
  - simpl. specialize (IH w Hw). now destruct (exec fw body w) as [[[]|e] w1].
  - simpl. unfold with_block.
    destruct (__enter__ fw w) as [[v|e] w1] eqn:He.
    + assert (H1 : _scope (cls w1) <> None).
      { destruct (enter_ok fw w v w1 He) as (w' & pre & _ & _ & _ & _ & ->).
        discriminate. }
      specialize (IH w1 H1).
      destruct (exec fw body w1) as [[[]|e] w2]; simpl in IH; rewrite exit_eq;
        destruct (_scope (cls w2)) eqn:Hs; try contradiction; simpl.
      * now rewrite Hs.
      * destruct (truthy _); simpl; now rewrite Hs.
    + simpl. rewrite enter_eq in He.
      pose proof (proj1 (scope_frame fw w)) as [Hkeep _].
      destruct (scope fw w) as [[sc|e'] w0]; [discriminate|].
      injection He as _ <-. simpl in Hkeep. now rewrite Hkeep.
Qed.

(** X14: the class never forgets a scope.  [__exit__] before any
    [__enter__] raises [AttributeError] and changes nothing; once a scope is
    stored, no method clears the attribute; and after a [with] block has
    ended, the scope it left is still stored, so that another [__exit__]
    reaches that same scope again. *)
Theorem X14_scope_never_cleared fw :
  (forall exc w, _scope (cls w) = None ->
                 __exit__ fw exc w = (Raise AttributeError, w)) /\
  (forall p w, _scope (cls w) <> None ->
               _scope (cls (snd (exec fw p w))) <> None) /\
  (forall body w v w1 exc,
      no_with body = true ->
      __enter__ fw w = (Ok v, w1) ->
      exists sc tr,
        _scope (cls w1) = Some sc /\
        trace (snd (exec fw (With body) w)) =
          tr ++ [EvScopeExit sc (exc_info (fst (exec fw body w1)))] /\
        _scope (cls (snd (exec fw (With body) w))) = Some sc /\
        trace (snd (__exit__ fw exc (snd (exec fw (With body) w)))) =
          trace (snd (exec fw (With body) w)) ++ [EvScopeExit sc exc]).
Proof.
  split; [|split].
  - intros exc w H. now rewrite exit_eq, H.
  - intros p w. apply exec_keeps_scope.
  - intros body w v w1 exc Hbody Henter.
    destruct (with_block_run fw body w v w1 Hbody Henter)
      as (sc & pre & evs & _ & Hsc & _ & _ & _ & _ & Hrun & Hkeep).
    exists sc. eexists. split; [exact Hsc|].
    rewrite Hrun. simpl. split; [reflexivity|]. split; [exact Hkeep|].
    rewrite exit_eq. simpl. now rewrite Hkeep.
Qed.

Lemma quiet_scope_events evs : quiet evs -> scope_events evs = [].
Proof.
  unfold quiet, scope_events. induction 1 as [|e evs He _ IH]; simpl; [reflexivity|].
  now rewrite He.
Qed.

Lemma scope_events_app a b :
  scope_events (a ++ b) = scope_events a ++ scope_events b.
Proof. apply filter_app. Qed.

Lemma balanced_app a b : balanced a -> balanced b -> balanced (a ++ b).
Proof.
  induction 1 as [|sc exc l _ IH]; intro Hb; simpl; [exact Hb|].
  constructor. now apply IH.
Qed.

Lemma extends_balanced w w2 :
  extends w w2 ->
  exists evs, trace w2 = trace w ++ evs /\ balanced (scope_events evs).
Proof.
  intros (_ & evs & Ht & Hq). exists evs. split; [exact Ht|].
  rewrite (quiet_scope_events _ Hq). constructor.
Qed.

(** X15: as long as no [with device_manager:] block is opened inside
    another, scopes are entered and left in strict alternation: in the
    framework calls of such code every scope entered is the next one left,
    before any other is entered, whether bodies return or raise. *)
Theorem X15_sequential_blocks_balanced fw p : forall w,
  flat p = true ->
  exists evs, trace (snd (exec fw p w)) = trace w ++ evs /\
              balanced (scope_events evs).
Proof.
  induction p as [|a IHa b IHb|ds|ds| | | | |v|e|body IH|body IH]; intros w Hf;
    try (match goal with |- context [exec fw ?q w] =>
           exact (extends_balanced _ _ (exec_extends fw q w eq_refl)) end).
  - simpl in Hf. apply andb_true_iff in Hf as [Ha Hb].
    simpl. unfold bind. destruct (IHa w Ha) as (ea & Hta & Hba).
    destruct (exec fw a w) as [[[]|e] w1]; simpl in *; [|now exists ea].
    destruct (IHb w1 Hb) as (eb & Htb & Hbb). exists (ea ++ eb).
    split; [now rewrite Htb, Hta, app_assoc|].
    rewrite scope_events_app. now apply balanced_app.
  - simpl in Hf. destruct (IH w Hf) as (evs & Ht & Hb). exists evs.
    simpl. now destruct (exec fw body w) as [[[]|e] w1].
  - simpl in Hf. destruct (__enter__ fw w) as [[v|e] w1] eqn:He.
    + destruct (with_block_run fw body w v w1 Hf He)
        as (sc & pre & evs & _ & _ & Hpre & Hq & Hevs & Hqe & Hrun & _).
      rewrite Hrun. simpl. rewrite Hevs, Hpre.
      exists (pre ++ [EvNewScope sc; EvScopeEnter sc] ++ evs ++
              [EvScopeExit sc (exc_info (fst (exec fw body w1)))]).
      split; [now rewrite <- !app_assoc|].
      rewrite !scope_events_app, (quiet_scope_events _ Hq), (quiet_scope_events _ Hqe).
      simpl. repeat constructor.
    + simpl. unfold with_block. rewrite He. simpl. rewrite enter_eq in He.
      pose proof (proj1 (scope_frame fw w)) as Hext.
      destruct (scope fw w) as [[sc|e'] w0]; [discriminate|].
      injection He as _ <-. exact (extends_balanced _ _ Hext).
Qed.

Lemma X15_sequential_blocks_balanced_witness :
  exists evs,
    trace (snd (exec host (Seq (Try (use_gpu0 (RaiseStmt (UserError 1))))
                               (use_cpu GetReplica)) initial))
      = trace initial ++ evs /\
    balanced (scope_events evs).
Proof.
  apply (X15_sequential_blocks_balanced host
           (Seq (Try (use_gpu0 (RaiseStmt (UserError 1)))) (use_cpu GetReplica))
           initial).
  reflexivity.
Defined.

(** ** The decorators *)

(** [__enter__] with nothing cached: the build, the new scope, its
    assignment and its entry. *)
Lemma enter_fresh fw w :
  _strategy (cls w) = None ->
  __enter__ fw w =
  match limit_gpu_memory fw w with
  | (Raise e, w1) => (Raise e, w1)
  | (Ok _, w1) =>
      match _short_names (_device_list (cls w1)) with
      | Raise e => (Raise e, w1)
      | Ok names =>
          let s := mkStrategy (fresh w1) (strategy_for names) in
          let sc := mkScope (S (fresh w1)) s in
          (Ok s,
           mkWorld (mkDM (_device (cls w1)) (_device_list (cls w1)) (Some s)
                         (Some sc) (_growth (cls w1)))
                   (S (S (fresh w1)))
                   (((trace w1 ++ [EvNewStrategy s]) ++ [EvNewScope sc]) ++
                    [EvScopeEnter sc]))
      end
  end.
Proof.
  intro H. rewrite enter_eq, scope_eq, (build_fresh fw w H).
  destruct (limit_gpu_memory fw w) as [[[]|e] w1]; [|reflexivity].
  now destruct (_short_names (_device_list (cls w1))).
Qed.

(** A [with] block that has been entered: the body runs, and [__exit__] is
    called on the scope stored when the body has ended, which is the scope
    entered if the body enters no block itself. *)
Lemma with_block_any fw body w v w1 :
  __enter__ fw w = (Ok v, w1) ->
  exists sc',
    _scope (cls (snd (exec fw body w1))) = Some sc' /\
    (no_with body = true -> _scope (cls w1) = Some sc') /\
    cls (snd (exec fw (With body) w)) = cls (snd (exec fw body w1)) /\
    trace (snd (exec fw (With body) w)) =
      trace (snd (exec fw body w1)) ++
      [EvScopeExit sc' (exc_info (fst (exec fw body w1)))].
Proof.
  intro Henter.
  assert (H1 : _scope (cls w1) <> None).
  { destruct (enter_ok fw w v w1 Henter) as (w' & pre & _ & _ & _ & _ & ->).
    discriminate. }
  pose proof (exec_keeps_scope fw body w1 H1) as H2.
  destruct (_scope (cls (snd (exec fw body w1)))) as [sc'|] eqn:Hs; [|contradiction].
  exists sc'. split; [reflexivity|]. split.
  { intro Hb. destruct (exec_extends fw body w1 Hb) as [Hk _]. now rewrite <- Hk. }
  simpl exec. unfold with_block. rewrite Henter.
  destruct (exec fw body w1) as [[[]|e] w2]; simpl in Hs |- *;
    rewrite exit_eq, Hs; [now split|].
  destruct (truthy _); now split.
Qed.

(** A [with] block that cannot be entered raises what [__enter__] raises
    and does not run its body. *)
Lemma with_block_blocked fw body w e w1 :
  __enter__ fw w = (Raise e, w1) -> exec fw (With body) w = (Raise e, w1).
Proof.
  intro H. simpl. unfold with_block. now rewrite H.
Qed.

(** The wrapper of a decorator up to the call of the function: a successful
    select, then [__enter__], which builds a new strategy for the devices
    just selected and enters a new scope of it. *)
Lemma select_enter fw on_gpu devices w sel :
  _select_from_available devices (queried fw on_gpu) = Ok sel ->
  exists w0,
    select_call fw on_gpu devices w = (Ok tt, w0) /\
    cls w0 = mkDM (Some (kind_name on_gpu)) sel None (_scope (cls w)) (_growth (cls w)) /\
    (forall v w1, __enter__ fw w0 = (Ok v, w1) ->
       exists os,
         strategy_id v = fresh w /\
         shape_by_count sel (strategy_kind v) /\
         cls w1 = mkDM (Some (kind_name on_gpu)) sel (Some v)
                       (Some (mkScope (S (fresh w)) v)) (_growth (cls w)) /\
         trace w1 = trace w ++
                    growth_events (_growth (cls w)) (list_physical_devices fw "GPU") os ++
                    [EvNewStrategy v; EvNewScope (mkScope (S (fresh w)) v);
                     EvScopeEnter (mkScope (S (fresh w)) v)] /\
         (on_gpu = false -> os = [])) /\
    (Forall well_named sel -> on_gpu = false \/ only_RuntimeError fw ->
     exists v w1, __enter__ fw w0 = (Ok v, w1)) /\
    (Exists (fun d => ~ well_named d) sel -> on_gpu = false \/ only_RuntimeError fw ->
     fst (__enter__ fw w0) = Raise IndexError_list).
Proof.
  intro Hsel.
  pose proof (select_call_eq fw on_gpu devices w) as Hcall. rewrite Hsel in Hcall.
  match type of Hcall with _ = (_, ?w') => set (w0 := w') in * end.
  exists w0. split; [exact Hcall|]. split; [reflexivity|].
  assert (Hdev : on_gpu = false \/ only_RuntimeError fw ->
                 device_is (_device (cls w0)) "gpu" = false \/ only_RuntimeError fw).
  { intros [->|H]; [left; reflexivity|right; exact H]. }
  rewrite (enter_fresh fw w0 eq_refl).
  pose proof (limit_gpu_memory_returns fw w0) as Hret.
  destruct (limit_gpu_memory_run fw w0) as (os & Hc & Hf & Ht & Hoff & _).
  destruct (limit_gpu_memory fw w0) as [[[]|e] w2]; simpl in Hret, Hc, Hf, Ht, Hoff.
  - rewrite Hc. simpl. split; [|split].
    + intros v w1. destruct (_short_names sel) as [ns|e] eqn:En; [|discriminate].
      intros [= <- <-]. exists os. simpl. rewrite Hf, Ht. simpl.
      split; [reflexivity|].
      split; [apply strategy_for_shape; now apply short_names_Forall2|].
      split; [reflexivity|]. split; [now rewrite <- !app_assoc|].
      intros ->. now destruct (Hoff eq_refl).
    + intros Hnames _. destruct (short_names_total _ Hnames) as [ns ->]. eauto.
    + intros Hbad _. now rewrite (short_names_malformed _ Hbad).
  - split; [discriminate|].
    split; intros _ H; discriminate (Hret (Hdev H)).
Qed.

Lemma select_one_index available n :
  _select_from_available (One (IInt (Z.of_nat n))) available =
  match nth_error available n with
  | Some dev => Ok [dev]
  | None => Raise (IndexError_device (IInt (Z.of_nat n)))
  end.
Proof.
  rewrite select_from_available_spec. cbn [identifiers find flat_map].
  unfold unavailable, expand. cbn [is_all negb andb _to_index]. rewrite Nat2Z.id.
  destruct (Z.ltb_spec (Z.of_nat n) 0) as [Hneg|_]; [lia|]. cbn [orb].
  destruct (nth_error available n) as [dev|] eqn:E.
  - assert (n < length available)%nat by (apply nth_error_Some; congruence).
    destruct (Z.leb_spec (Z.of_nat (length available)) (Z.of_nat n)); [lia|].
    reflexivity.
  - apply nth_error_None in E.
    destruct (Z.leb_spec (Z.of_nat (length available)) (Z.of_nat n)); [|lia].
    reflexivity.
Qed.

Lemma use_gpu_unfold n foo :
  (n <= 3)%nat ->
  use_gpu n foo = Seq (Gpu (One (IInt (Z.of_nat n)))) (With foo).
Proof.
  intro H. destruct n as [|[|[|[|n]]]]; try reflexivity. lia.
Qed.

(** X16: each of [use_gpu0] ... [use_gpu3] selects its GPU before anything
    else: on a host with too few GPUs the wrapper raises the index error for
    its index, the decorated function is not called, no strategy is built and
    no scope is created; only the device type now reads ['gpu']. *)
Theorem X16_decorator_needs_its_gpu fw n foo w :
  (n <= 3)%nat ->
  (length (list_physical_devices fw "GPU") <= n)%nat ->
  exec fw (use_gpu n foo) w =
    (Raise (IndexError_device (IInt (Z.of_nat n))),
     mkWorld (mkDM (Some "gpu") (_device_list (cls w)) (_strategy (cls w))
                   (_scope (cls w)) (_growth (cls w)))
             (fresh w) (trace w)).
Proof.
  intros Hn Hlen. rewrite (use_gpu_unfold n foo Hn).
  change (exec fw (Seq (Gpu (One (IInt (Z.of_nat n)))) (With foo)) w)
    with (bind (select_call fw true (One (IInt (Z.of_nat n))))
               (fun _ => exec fw (With foo)) w).
  unfold bind. rewrite select_call_eq, select_one_index.
  unfold queried. apply nth_error_None in Hlen. now rewrite Hlen.
Qed.

Lemma X16_decorator_needs_its_gpu_witness :
  exec host (use_gpu 2 GetReplica) initial =
    (Raise (IndexError_device (IInt (Z.of_nat 2))),
     mkWorld (mkDM (Some "gpu") (_device_list (cls initial)) (_strategy (cls initial))
                   (_scope (cls initial)) (_growth (cls initial)))
             (fresh initial) (trace initial)).
Proof.
  apply (X16_decorator_needs_its_gpu host 2 GetReplica initial); simpl; lia.
Defined.

(** X17: a call of a function decorated with [use_gpu0] ... [use_gpu3], on a
    host that has the GPU, never reuses a cached strategy: the select of the
    wrapper succeeds, installs that one GPU and empties the cache.  If
    entering the [with] block then raises, the wrapper raises the same
    exception and the function is not called.  If it returns, it has built a
    new single-device strategy on the short name of the GPU and entered a new
    scope of it; the function runs in that state, and when it has returned
    or raised, the wrapper calls [__exit__], with the exception of the
    function if it raised, on the scope stored at that time: the scope
    entered, if the function enters no [with] block itself.  Entering
    returns when the name of the GPU has at least two [':']-segments and
    [set_memory_growth] raises nothing but [RuntimeError], the constructors
    and the entry of the scope being assumed not to raise. *)
Theorem X17_decorated_call_rebuilds fw n g foo w :
  (n <= 3)%nat ->
  nth_error (list_physical_devices fw "GPU") n = Some g ->
  exists w0,
    select_call fw true (One (IInt (Z.of_nat n))) w = (Ok tt, w0) /\
    cls w0 = mkDM (Some "gpu") [g] None (_scope (cls w)) (_growth (cls w)) /\
    (forall e w1, __enter__ fw w0 = (Raise e, w1) ->
       exec fw (use_gpu n foo) w = (Raise e, w1)) /\
    (forall v w1, __enter__ fw w0 = (Ok v, w1) ->
       exists short sc os sc',
         short_name g = Ok short /\
         v = mkStrategy (fresh w) (OneDeviceStrategy short) /\
         sc = mkScope (S (fresh w)) v /\
         cls w1 = mkDM (Some "gpu") [g] (Some v) (Some sc) (_growth (cls w)) /\
         trace w1 = trace w ++
                    growth_events (_growth (cls w)) (list_physical_devices fw "GPU") os ++
                    [EvNewStrategy v; EvNewScope sc; EvScopeEnter sc] /\
         _scope (cls (snd (exec fw foo w1))) = Some sc' /\
         (no_with foo = true -> sc' = sc) /\
         cls (snd (exec fw (use_gpu n foo) w)) = cls (snd (exec fw foo w1)) /\
         trace (snd (exec fw (use_gpu n foo) w)) =
           trace (snd (exec fw foo w1)) ++
           [EvScopeExit sc' (exc_info (fst (exec fw foo w1)))]) /\
    (well_named g -> only_RuntimeError fw ->
     exists v w1, __enter__ fw w0 = (Ok v, w1)).
Proof.
  intros Hn Hg.
  assert (Hsel : _select_from_available (One (IInt (Z.of_nat n))) (queried fw true)
                 = Ok [g]).
  { rewrite select_one_index. unfold queried. now rewrite Hg. }
  destruct (select_enter fw true (One (IInt (Z.of_nat n))) w [g] Hsel)
    as (w0 & Hcall & Hcls0 & Hin & Hret & _).
  assert (Hrun : forall r, exec fw (use_gpu n foo) w = r <-> exec fw (With foo) w0 = r).
  { intro r. rewrite (use_gpu_unfold n foo Hn).
    change (exec fw (Seq (Gpu (One (IInt (Z.of_nat n)))) (With foo)) w)
      with (bind (select_call fw true (One (IInt (Z.of_nat n))))
                 (fun _ => exec fw (With foo)) w).
    unfold bind. rewrite Hcall. reflexivity. }
  exists w0. split; [exact Hcall|]. split; [exact Hcls0|]. split; [|split].
  - intros e w1 He. apply Hrun. exact (with_block_blocked fw foo w0 e w1 He).
  - intros v w1 He.
    destruct (Hin v w1 He) as (os & Hid & (short & Hshort & Hkind) & Hcls & Htr & _).
    destruct (with_block_any fw foo w0 v w1 He) as (sc' & Hsc' & Hsame & Hc & Ht).
    exists short, (mkScope (S (fresh w)) v), os, sc'.
    split; [exact Hshort|].
    split; [destruct v as [i k]; simpl in Hid, Hkind; now subst|].
    split; [reflexivity|]. split; [exact Hcls|]. split; [exact Htr|].
    split; [exact Hsc'|]. split.
    { intro Hb. specialize (Hsame Hb). rewrite Hcls in Hsame. simpl in Hsame.
      now injection Hsame. }
    rewrite (proj2 (Hrun _) eq_refl). now split.
  - intros Hnamed Honly. apply Hret; [|now right].
    constructor; [exact Hnamed|constructor].
Qed.

(** X17 on the host, with a strategy for both GPUs cached: [use_gpu1]. *)
Lemma X17_decorated_call_rebuilds_witness :
  exists w0,
    select_call host_late true (One (IInt (Z.of_nat 1))) (snd (strategy host after_gpu_all))
      = (Ok tt, w0) /\
    cls w0 = mkDM (Some "gpu") [gpu1] None
                  (_scope (cls (snd (strategy host after_gpu_all))))
                  (_growth (cls (snd (strategy host after_gpu_all)))) /\
    (forall e w1, __enter__ host_late w0 = (Raise e, w1) ->
       exec host_late (use_gpu 1 GetReplica) (snd (strategy host after_gpu_all))
         = (Raise e, w1)) /\
    (forall v w1, __enter__ host_late w0 = (Ok v, w1) ->
       exists short sc os sc',
         short_name gpu1 = Ok short /\
         v = mkStrategy (fresh (snd (strategy host after_gpu_all)))
                        (OneDeviceStrategy short) /\
         sc = mkScope (S (fresh (snd (strategy host after_gpu_all)))) v /\
         cls w1 = mkDM (Some "gpu") [gpu1] (Some v) (Some sc)
                       (_growth (cls (snd (strategy host after_gpu_all)))) /\
         trace w1 = trace (snd (strategy host after_gpu_all)) ++
                    growth_events (_growth (cls (snd (strategy host after_gpu_all))))
                                  (list_physical_devices host_late "GPU") os ++
                    [EvNewStrategy v; EvNewScope sc; EvScopeEnter sc] /\
         _scope (cls (snd (exec host_late GetReplica w1))) = Some sc' /\
         (no_with GetReplica = true -> sc' = sc) /\
         cls (snd (exec host_late (use_gpu 1 GetReplica)
                        (snd (strategy host after_gpu_all)))) =
           cls (snd (exec host_late GetReplica w1)) /\
         trace (snd (exec host_late (use_gpu 1 GetReplica)
                          (snd (strategy host after_gpu_all)))) =
           trace (snd (exec host_late GetReplica w1)) ++
           [EvScopeExit sc' (exc_info (fst (exec host_late GetReplica w1)))]) /\
    (well_named gpu1 -> only_RuntimeError host_late ->
     exists v w1, __enter__ host_late w0 = (Ok v, w1)).
Proof.
  apply (X17_decorated_call_rebuilds host_late 1 gpu1 GetReplica
                                     (snd (strategy host after_gpu_all))).
  - lia.
  - reflexivity.
Defined.

(** X18: [use_cpu] cannot fail in its select: whatever CPUs the framework
    reports, none included, the select of the wrapper succeeds, installs
    them all and empties the cache.  If entering the [with] block then
    raises, as it does with the [IndexError] of the subscript when a reported
    name has fewer than two [':']-segments, the wrapper raises the same
    exception and the function is not called.  If it returns, it has built a
    new strategy of the shape the number of CPUs asks for, without any call
    to [set_memory_growth], and entered a new scope of it; the function runs
    in that state, and when it has returned or raised, the wrapper calls
    [__exit__], with the exception of the function if it raised, on the
    scope stored at that time: the scope entered, if the function enters no
    [with] block itself.  Entering returns when every reported name has at
    least two [':']-segments, the constructors and the entry of the scope
    being assumed not to raise. *)
Theorem X18_use_cpu_runs_on_all_cpus fw foo w :
  exists w0,
    select_call fw false (One (IStr "all")) w = (Ok tt, w0) /\
    cls w0 = mkDM (Some "cpu") (list_physical_devices fw "CPU") None
                  (_scope (cls w)) (_growth (cls w)) /\
    (forall e w1, __enter__ fw w0 = (Raise e, w1) ->
       exec fw (use_cpu foo) w = (Raise e, w1)) /\
    (Exists (fun d => ~ well_named d) (list_physical_devices fw "CPU") ->
     fst (__enter__ fw w0) = Raise IndexError_list) /\
    (forall v w1, __enter__ fw w0 = (Ok v, w1) ->
       exists sc sc',
         strategy_id v = fresh w /\
         shape_by_count (list_physical_devices fw "CPU") (strategy_kind v) /\
         sc = mkScope (S (fresh w)) v /\
         cls w1 = mkDM (Some "cpu") (list_physical_devices fw "CPU") (Some v) (Some sc)
                       (_growth (cls w)) /\
         trace w1 = trace w ++ [EvNewStrategy v; EvNewScope sc; EvScopeEnter sc] /\
         _scope (cls (snd (exec fw foo w1))) = Some sc' /\
         (no_with foo = true -> sc' = sc) /\
         cls (snd (exec fw (use_cpu foo) w)) = cls (snd (exec fw foo w1)) /\
         trace (snd (exec fw (use_cpu foo) w)) =
           trace (snd (exec fw foo w1)) ++
           [EvScopeExit sc' (exc_info (fst (exec fw foo w1)))]) /\
    (Forall well_named (list_physical_devices fw "CPU") ->
     exists v w1, __enter__ fw w0 = (Ok v, w1)).
Proof.
  assert (Hsel : _select_from_available (One (IStr "all")) (queried fw false)
                 = Ok (list_physical_devices fw "CPU")).
  { rewrite select_from_available_spec. simpl. now rewrite app_nil_r. }
  destruct (select_enter fw false (One (IStr "all")) w _ Hsel)
    as (w0 & Hcall & Hcls0 & Hin & Hret & Hbad).
  assert (Hrun : forall r, exec fw (use_cpu foo) w = r <-> exec fw (With foo) w0 = r).
  { intro r. unfold use_cpu.
    change (exec fw (Seq (Cpu (One (IStr "all"))) (With foo)) w)
      with (bind (select_call fw false (One (IStr "all")))
                 (fun _ => exec fw (With foo)) w).
    unfold bind. rewrite Hcall. reflexivity. }
  exists w0. split; [exact Hcall|]. split; [exact Hcls0|].
  split; [|split; [|split]].
  - intros e w1 He. apply Hrun. exact (with_block_blocked fw foo w0 e w1 He).
  - intro H. apply Hbad; [exact H|now left].
  - intros v w1 He.
    destruct (Hin v w1 He) as (os & Hid & Hshape & Hcls & Htr & Hos).
    destruct (with_block_any fw foo w0 v w1 He) as (sc' & Hsc' & Hsame & Hc & Ht).
    rewrite (Hos eq_refl) in Htr. unfold growth_events in Htr.
    rewrite combine_nil in Htr. simpl in Htr.
    exists (mkScope (S (fresh w)) v), sc'.
    split; [exact Hid|]. split; [exact Hshape|]. split; [reflexivity|].
    split; [exact Hcls|]. split; [exact Htr|]. split; [exact Hsc'|]. split.
    { intro Hb. specialize (Hsame Hb). rewrite Hcls in Hsame. simpl in Hsame.
      now injection Hsame. }
    rewrite (proj2 (Hrun _) eq_refl). now split.
  - intro Hnames. apply Hret; [exact Hnames|now left].
Qed.

(** X18 on the host, with the two GPUs selected before: the function
    raises, and the wrapper leaves the scope with that exception. *)
Lemma X18_use_cpu_runs_on_all_cpus_witness :
  exists w0,
    select_call host false (One (IStr "all")) after_gpu_all = (Ok tt, w0) /\
    cls w0 = mkDM (Some "cpu") (list_physical_devices host "CPU") None
                  (_scope (cls after_gpu_all)) (_growth (cls after_gpu_all)) /\
    (forall e w1, __enter__ host w0 = (Raise e, w1) ->
       exec host (use_cpu (RaiseStmt (UserError 7))) after_gpu_all = (Raise e, w1)) /\
    (Exists (fun d => ~ well_named d) (list_physical_devices host "CPU") ->
     fst (__enter__ host w0) = Raise IndexError_list) /\
    (forall v w1, __enter__ host w0 = (Ok v, w1) ->
       exists sc sc',
         strategy_id v = fresh after_gpu_all /\
         shape_by_count (list_physical_devices host "CPU") (strategy_kind v) /\
         sc = mkScope (S (fresh after_gpu_all)) v /\
         cls w1 = mkDM (Some "cpu") (list_physical_devices host "CPU") (Some v) (Some sc)
                       (_growth (cls after_gpu_all)) /\
         trace w1 = trace after_gpu_all ++
                    [EvNewStrategy v; EvNewScope sc; EvScopeEnter sc] /\
         _scope (cls (snd (exec host (RaiseStmt (UserError 7)) w1))) = Some sc' /\
         (no_with (RaiseStmt (UserError 7)) = true -> sc' = sc) /\
         cls (snd (exec host (use_cpu (RaiseStmt (UserError 7))) after_gpu_all)) =
           cls (snd (exec host (RaiseStmt (UserError 7)) w1)) /\
         trace (snd (exec host (use_cpu (RaiseStmt (UserError 7))) after_gpu_all)) =
           trace (snd (exec host (RaiseStmt (UserError 7)) w1)) ++
           [EvScopeExit sc' (exc_info (fst (exec host (RaiseStmt (UserError 7)) w1)))]) /\
    (Forall well_named (list_physical_devices host "CPU") ->
     exists v w1, __enter__ host w0 = (Ok v, w1)).
Proof.
  exact (X18_use_cpu_runs_on_all_cpus host (RaiseStmt (UserError 7)) after_gpu_all).
Defined.

(** ** Who writes which attribute *)

Lemma same_config_refl w : same_config w w.
Proof. now repeat split. Qed.

Lemma build_config fw w : same_config w (snd (_build_strategy fw w)).
Proof.
  destruct (_strategy (cls w)) as [s|] eqn:Hs.
  - rewrite (build_cached fw w s Hs). apply same_config_refl.
  - rewrite (build_fresh fw w Hs).
    destruct (limit_gpu_memory_run fw w) as (os & Hc & _).
    destruct (limit_gpu_memory fw w) as [[[]|e] w1]; simpl in Hc.
    + destruct (_short_names (_device_list (cls w1))); simpl;
        unfold same_config; simpl; now rewrite Hc.
    + unfold same_config. simpl. now rewrite Hc.
Qed.

Lemma strategy_config fw w : same_config w (snd (strategy fw w)).
Proof.
  rewrite strategy_eq. pose proof (build_config fw w) as H.
  destruct (_build_strategy fw w) as [[[]|e] w']; exact H.
Qed.

Lemma replica_config fw w : same_config w (snd (replica fw w)).
Proof.
  rewrite replica_eq. pose proof (build_config fw w) as H.
  destruct (_build_strategy fw w) as [[[]|e] w']; [|exact H].
  destruct (_strategy (cls w')); exact H.
Qed.

Lemma scope_config fw w : same_config w (snd (scope fw w)).
Proof.
  rewrite scope_eq. pose proof (build_config fw w) as H.
  destruct (_build_strategy fw w) as [[[]|e] w']; [|exact H].
  destruct (_strategy (cls w')); exact H.
Qed.

Lemma enter_config fw w : same_config w (snd (__enter__ fw w)).
Proof.
  rewrite enter_eq. pose proof (scope_config fw w) as H.
  destruct (scope fw w) as [[sc|e] w']; exact H.
Qed.

Lemma exit_config fw exc w : same_config w (snd (__exit__ fw exc w)).
Proof.
  rewrite exit_eq. destruct (_scope (cls w)); simpl; now repeat split.
Qed.

Lemma exec_keeps_selection fw p : forall w,
  no_select p = true ->
  _device (cls (snd (exec fw p w))) = _device (cls w) /\
  _device_list (cls (snd (exec fw p w))) = _device_list (cls w).
Proof.
  induction p as [|a IHa b IHb|ds|ds| | | | |v|e|body IH|body IH]; intros w Hn;
    simpl in Hn; try discriminate Hn.
  - now split.
  - apply andb_true_iff in Hn as [Ha Hb]. simpl. unfold bind.
    specialize (IHa w Ha). destruct (exec fw a w) as [[[]|e] w1]; simpl in *;
      [|exact IHa].
    destruct (IHb w1 Hb) as [B1 B2]. destruct IHa as [A1 A2]. split; congruence.
  - simpl. unfold discard, bind, ret. destruct (strategy_config fw w) as (A & B & _).
    now destruct (strategy fw w) as [[?|?] ?].
  - simpl. unfold discard, bind, ret. destruct (replica_config fw w) as (A & B & _).
    now destruct (replica fw w) as [[?|?] ?].
  - simpl. unfold discard, bind, ret. destruct (scope_config fw w) as (A & B & _).
    now destruct (scope fw w) as [[?|?] ?].
  - now split.
  - now split.
  - now split.
  - simpl. specialize (IH w Hn). now destruct (exec fw body w) as [[[]|e] w1].
  - assert (H : forall w0, no_select body = true ->
                           _device (cls (snd (exec fw body w0))) = _device (cls w0) /\
                           _device_list (cls (snd (exec fw body w0)))
                             = _device_list (cls w0)) by (intros; now apply IH).
    clear IH. simpl. unfold with_block.
    destruct (enter_config fw w) as (A1 & B1 & _).
    destruct (__enter__ fw w) as [[v|e] w1]; simpl in *; [|now split].
    destruct (H w1 Hn) as [A2 B2].
    destruct (exec fw body w1) as [[[]|e] w2]; simpl in *.
    + destruct (exit_config fw None w2) as (A3 & B3 & _).
      destruct (__exit__ fw None w2) as [[?|?] ?]; simpl in *; split; congruence.
    + destruct (exit_config fw (Some e) w2) as (A3 & B3 & _).
      destruct (__exit__ fw (Some e) w2) as [[r|?] ?]; simpl in *;
        [destruct (truthy r)|]; simpl; split; congruence.
Qed.

Lemma exec_keeps_growth fw p : forall w,
  no_set_growth p = true ->
  _growth (cls (snd (exec fw p w))) = _growth (cls w).
Proof.
  induction p as [|a IHa b IHb|ds|ds| | | | |v|e|body IH|body IH]; intros w Hn;
    simpl in Hn; try discriminate Hn.
  - reflexivity.
  - apply andb_true_iff in Hn as [Ha Hb]. simpl. unfold bind.
    specialize (IHa w Ha). destruct (exec fw a w) as [[[]|e] w1]; simpl in *;
      [|exact IHa].
    rewrite (IHb w1 Hb). exact IHa.
  - change (exec fw (Cpu ds)) with (select_call fw false ds). rewrite select_call_eq.
    now destruct (_select_from_available ds (queried fw false)).
  - change (exec fw (Gpu ds)) with (select_call fw true ds). rewrite select_call_eq.
    now destruct (_select_from_available ds (queried fw true)).
  - simpl. unfold discard, bind, ret. destruct (strategy_config fw w) as (_ & _ & C).
    now destruct (strategy fw w) as [[?|?] ?].
  - simpl. unfold discard, bind, ret. destruct (replica_config fw w) as (_ & _ & C).
    now destruct (replica fw w) as [[?|?] ?].
  - simpl. unfold discard, bind, ret. destruct (scope_config fw w) as (_ & _ & C).
    now destruct (scope fw w) as [[?|?] ?].
  - reflexivity.
  - reflexivity.
  - simpl. specialize (IH w Hn). now destruct (exec fw body w) as [[[]|e] w1].
  - simpl. unfold with_block.
    destruct (enter_config fw w) as (_ & _ & C1).
    destruct (__enter__ fw w) as [[v|e] w1]; simpl in *; [|exact C1].
    specialize (IH w1 Hn).
    destruct (exec fw body w1) as [[[]|e] w2]; simpl in *.
    + destruct (exit_config fw None w2) as (_ & _ & C3).
      destruct (__exit__ fw None w2) as [[?|?] ?]; simpl in *; congruence.
    + destruct (exit_config fw (Some e) w2) as (_ & _ & C3).
      destruct (__exit__ fw (Some e) w2) as [[r|?] ?]; simpl in *;
        [destruct (truthy r)|]; simpl; congruence.
Qed.

(** X19: only [cpu] and [gpu] write the device type and the selection, and
    only the [growth] setter writes the flag.  Code that calls neither [cpu]
    nor [gpu] (getters, [scope()], [with] blocks, failing or not) leaves
    both as they were, so iterating over the manager afterwards still yields
    the devices of the last select; code that does not assign [growth]
    leaves the flag, selects included. *)
Theorem X19_only_select_and_setter_write fw p w :
  (no_select p = true ->
     _device (cls (snd (exec fw p w))) = _device (cls w) /\
     _device_list (cls (snd (exec fw p w))) = _device_list (cls w) /\
     fst (__iter__ (snd (exec fw p w))) = Ok (_device_list (cls w))) /\
  (no_set_growth p = true ->
     _growth (cls (snd (exec fw p w))) = _growth (cls w) /\
     fst (growth (snd (exec fw p w))) = Ok (_growth (cls w))).
Proof.
  split; intro H.
  - destruct (exec_keeps_selection fw p w H) as [A B]. repeat split; auto.
    unfold __iter__, bind, get_cls, ret. simpl. now rewrite B.
  - pose proof (exec_keeps_growth fw p w H) as C. split; [exact C|].
    unfold growth, bind, get_cls, ret. simpl. now rewrite C.
Qed.

(** ** The cache in use *)

(** X20: once a strategy is cached it stays cached until the next [cpu] or
    [gpu]: whatever else is called in between (the getters, [scope()], the
    growth setter, [with] blocks, nested or not, raising or not), the same
    object remains cached, no other strategy is constructed and
    [set_memory_growth] is not called. *)
Theorem X20_cache_survives_use fw s p : forall w,
  no_select p = true ->
  _strategy (cls w) = Some s ->
  _strategy (cls (snd (exec fw p w))) = Some s /\
  exists evs, trace (snd (exec fw p w)) = trace w ++ evs /\
              Forall (fun e => is_build_event e = false) evs.
Proof.
  intros w Hn Hs. exact (exec_keeps_cache fw s p w Hn Hs).
Qed.

Lemma X20_cache_survives_use_witness :
  let s := mkStrategy 0 (MirroredStrategy ["/gpu:0"; "/gpu:1"]%string) in
  let w := snd (strategy host after_gpu_all) in
  let p := Seq (SetGrowth true)
               (Seq (Try (With (With (RaiseStmt (UserError 1))))) GetReplica) in
  _strategy (cls (snd (exec host p w))) = Some s /\
  exists evs, trace (snd (exec host p w)) = trace w ++ evs /\
              Forall (fun e => is_build_event e = false) evs.
Proof.
  intros s w p. apply (X20_cache_survives_use host s p w); reflexivity.
Defined.
